(** * mongoose-unit-of-work: the transaction-session lifecycle and its retry layer

    A shallow embedding of [src/unit-of-work.ts] and
    [src/resilient-unit-of-work.ts] (with [src/constants.ts] and
    [src/interfaces.ts]).  The two classes are asynchronous but strictly
    sequential: every [await] is a point where the store answers, so a method
    is a function from the state of the manager and the history of the
    conversation with the outside world to a completion and a new state. *)

From Stdlib Require Import ZArith List String Bool Lia.
Import ListNotations.
Local Open Scope string_scope.
Local Open Scope Z_scope.
Local Open Scope list_scope.

(** ** Values thrown and returned *)

(** Anything that can be thrown.  Of an object the code reads [error.name]
    and [error.message], either of which may be missing; [null] and
    [undefined], the value of a [let] that was never assigned, have no
    property to read. *)
Inductive JsError : Type :=
| mkError (name message : option string)
| null
| undefined.

(** The name and the message of a thrown value, where there is an object to
    read them from. *)
Definition name (err : JsError) : option string :=
  match err with
  | mkError n _ => n
  | null | undefined => None
  end.

Definition message (err : JsError) : option string :=
  match err with
  | mkError _ m => m
  | null | undefined => None
  end.

(** [new Error(msg)] *)
Definition Error (msg : string) : JsError :=
  mkError (Some "Error") (Some msg).

(** The error of reading the property [name] of [null] or [undefined]; the
    wording of the message is V8's. *)
Definition TypeError (read_of : string) : JsError :=
  mkError (Some "TypeError")
    (Some ("Cannot read properties of " ++ read_of ++ " (reading 'name')")%string).

(** ** Numbers *)

(** The numbers the retry layer computes with are doubles.  The model keeps
    those whose value is an integer, and the three that are not finite; the
    sign of zero is not tracked. *)
Inductive Number : Type :=
| Finite (z : Z)
| PlusInfinity
| MinusInfinity
| NaN.

Coercion Finite : Z >-> Number.

(** The double nearest to the integer [z], ties going to the even mantissa
    of 53 bits; beyond the largest double the result is infinite. *)
Definition nearest_double (z : Z) : Number :=
  let a := Z.abs z in
  if a <? 2 ^ 53 then Finite z
  else
    let shift := Z.log2 a - 52 in
    let q := Z.shiftr a shift in
    let r := a - Z.shiftl q shift in
    let half := 2 ^ (shift - 1) in
    let q' := if (half <? r) || ((r =? half) && Z.odd q) then q + 1 else q in
    let m := Z.shiftl q' shift in
    if 2 ^ 1024 <=? m
    then (if z <? 0 then MinusInfinity else PlusInfinity)
    else Finite (Z.sgn z * m).

(** [x * y] *)
Definition times (x y : Number) : Number :=
  match x, y with
  | NaN, _ | _, NaN => NaN
  | Finite a, Finite b => nearest_double (a * b)
  | Finite a, PlusInfinity | PlusInfinity, Finite a =>
      if a =? 0 then NaN else if 0 <? a then PlusInfinity else MinusInfinity
  | Finite a, MinusInfinity | MinusInfinity, Finite a =>
      if a =? 0 then NaN else if 0 <? a then MinusInfinity else PlusInfinity
  | PlusInfinity, PlusInfinity | MinusInfinity, MinusInfinity => PlusInfinity
  | PlusInfinity, MinusInfinity | MinusInfinity, PlusInfinity => MinusInfinity
  end.

(** [Math.pow(base, exponent)] for an integer base and an exponent that is
    a count.  The power is exact whenever it is a double; where it is not,
    it is taken as the nearest double, which an implementation of
    [Math.pow] may miss by one unit in the last place. *)
Definition Math_pow (base exponent : Z) : Number :=
  nearest_double (base ^ exponent).

(** [Math.min(x, y)] *)
Definition Math_min (x y : Number) : Number :=
  match x, y with
  | NaN, _ | _, NaN => NaN
  | MinusInfinity, _ | _, MinusInfinity => MinusInfinity
  | PlusInfinity, y' => y'
  | x', PlusInfinity => x'
  | Finite a, Finite b => Finite (Z.min a b)
  end.

(** How a call ends: [return a] or [throw e]. *)
Inductive Completion (A : Type) : Type :=
| Return (a : A)
| Throw (e : JsError).
Arguments Return {A} a.
Arguments Throw {A} e.

(** ** The outside world: store, unit of work, logger, timer *)

(** A [ClientSession] handle, known by its identity. *)
Definition ClientSession : Type := nat.

(** The failable methods of a session handle. *)
Inductive SessionOp : Type :=
| StartTransaction
| CommitTransaction
| AbortTransaction
| EndSession.

(** What the store and the clock have seen, oldest first:
    [connection.startSession] with its answer, a method of a session with the
    error it threw if any, the unit of work run on a session with the error it
    threw if any, and [setTimeout] delays. *)
Inductive Event : Type :=
| StartSession (answer : Completion ClientSession)
| SessionCall (op : SessionOp) (s : ClientSession) (failure : option JsError)
| Invoke (s : ClientSession) (failure : option JsError)
| Slept (ms : Number).

(** The [Connection] capability is opaque to this library; its answers are
    functions of everything it has seen so far.  [inTransaction] is the only
    method that cannot throw.  The transaction options are fixed when the
    manager is built and only forwarded to [startSession]; they are part of
    the store here. *)
Record Connection : Type := {
  startSession : list Event -> Completion ClientSession;
  sessionOp : list Event -> SessionOp -> ClientSession -> option JsError;
  inTransaction : list Event -> ClientSession -> bool
}.

(** [TransactionFunction<T>]: the caller's unit of work, seen through what it
    returns or throws when run on a session after a given history.  Its own
    reads and writes reach the store through the session and are summed up
    in one [Invoke] event; it is taken not to drive the lifecycle of the
    manager it is handed. *)
Definition TransactionFunction (T : Type) : Type :=
  list Event -> ClientSession -> Completion T.

(** [ILogger]: four levels, a message and optional details.  A template
    literal is kept as its text; the interpolated values come first in the
    details. *)
Inductive Level : Type := Ldebug | Linfo | Lwarn | Lerror.

Inductive Detail : Type :=
| DError (e : JsError)
| DNumber (n : Number).

Record LogEntry : Type := Log {
  level : Level;
  text : string;
  details : list Detail
}.

(** ** State and the monad of methods *)

(** The manager's [session] field together with the two append-only records
    of its effects. *)
Record World : Type := mkWorld {
  session : option ClientSession;
  history : list Event;
  logged : list LogEntry
}.

Definition M (A : Type) : Type := World -> Completion A * World.

Definition ret {A} (a : A) : M A := fun w => (Return a, w).

Definition throw {A} (e : JsError) : M A := fun w => (Throw e, w).

Definition bind {A B} (m : M A) (k : A -> M B) : M B :=
  fun w =>
    match m w with
    | (Return a, w') => k a w'
    | (Throw e, w') => (Throw e, w')
    end.

Notation "x <- m ;; k" := (bind m (fun x => k))
  (at level 61, m at next level, right associativity).
Notation "m ;; k" := (bind m (fun _ => k))
  (at level 61, right associativity).

(** [try { body } catch (error) { handler }] *)
Definition try_catch {A} (body : M A) (handler : JsError -> M A) : M A :=
  fun w =>
    match body w with
    | (Return a, w') => (Return a, w')
    | (Throw e, w') => handler e w'
    end.

(** [try { body } finally { fin }]: [fin] always runs; if it throws, its
    error replaces the completion of [body]. *)
Definition try_finally {A} (body : M A) (fin : M unit) : M A :=
  fun w =>
    match body w with
    | (c, w') =>
        match fin w' with
        | (Return _, w'') => (c, w'')
        | (Throw e, w'') => (Throw e, w'')
        end
    end.

Definition emit (ev : Event) (w : World) : World :=
  {| session := session w; history := history w ++ [ev]; logged := logged w |}.

Definition set_session (o : option ClientSession) : M unit :=
  fun w =>
    (Return tt, {| session := o; history := history w; logged := logged w |}).

(** [this.logger.<level>(text, ...details)] *)
Definition logger (l : Level) (t : string) (d : list Detail) : M unit :=
  fun w =>
    (Return tt,
     {| session := session w; history := history w;
        logged := logged w ++ [Log l t d] |}).

(** [setTimeout] behind [delay] *)
Definition sleep (ms : Number) : M unit :=
  fun w => (Return tt, emit (Slept ms) w).

(** ** [class UnitOfWork] *)

Module UnitOfWork.
Section Methods.

Variable connection : Connection.

(** Reads [this.session]. *)
Definition this_session : M (option ClientSession) :=
  fun w => (Return (session w), w).

(** [await this.connection.startSession(...)] *)
Definition connection_startSession : M ClientSession :=
  fun w =>
    let answer := startSession connection (history w) in
    (answer, emit (StartSession answer) w).

(** One of the failable methods of the session [s]. *)
Definition session_call (op : SessionOp) (s : ClientSession) : M unit :=
  fun w =>
    match sessionOp connection (history w) op s with
    | None => (Return tt, emit (SessionCall op s None) w)
    | Some e => (Throw e, emit (SessionCall op s (Some e)) w)
    end.

(** [this.session.inTransaction()] *)
Definition session_inTransaction (s : ClientSession) : M bool :=
  fun w => (Return (inTransaction connection (history w) s), w).

Definition failure_of {A} (c : Completion A) : option JsError :=
  match c with
  | Return _ => None
  | Throw e => Some e
  end.

(** [await transactionFn(this.session, this)] *)
Definition call_transactionFn {T} (transactionFn : TransactionFunction T)
    (s : ClientSession) : M T :=
  fun w =>
    let c := transactionFn (history w) s in
    (c, emit (Invoke s (failure_of c)) w).

Definition begin : M unit :=
  o <- this_session ;;
  match o with
  | Some _ =>
      logger Lwarn "A session is already active" [] ;;
      throw (Error "A session is already active")
  | None =>
      logger Ldebug "Starting new transaction session" [] ;;
      s <- connection_startSession ;;
      set_session (Some s) ;;
      session_call StartTransaction s
  end.

Definition getSession : M ClientSession :=
  o <- this_session ;;
  match o with
  | None => throw (Error "No active transaction. Call begin() first.")
  | Some s => ret s
  end.

Definition execute {T} (transactionFn : TransactionFunction T) : M T :=
  o <- this_session ;;
  match o with
  | None =>
      logger Lwarn "No active transaction. Call begin() first." [] ;;
      throw (Error "No active transaction. Call begin() first.")
  | Some s =>
      try_catch
        (logger Ldebug "Executing transaction function" [] ;;
         result <- call_transactionFn transactionFn s ;;
         ret result)
        (fun err =>
           logger Lerror "Error executing transaction" [DError err] ;;
           throw err)
  end.

Definition abort : M unit :=
  o <- this_session ;;
  match o with
  | None => ret tt
  | Some s =>
      active <- session_inTransaction s ;;
      if negb active then ret tt
      else
        try_catch
          (logger Ldebug "Aborting transaction" [] ;;
           session_call AbortTransaction s ;;
           logger Linfo "Transaction aborted successfully" [])
          (fun err => logger Lerror "Error aborting transaction" [DError err])
  end.

Definition commit : M unit :=
  o <- this_session ;;
  match o with
  | None => ret tt
  | Some s =>
      active <- session_inTransaction s ;;
      if negb active then ret tt
      else
        try_catch
          (logger Ldebug "Committing transaction" [] ;;
           session_call CommitTransaction s ;;
           logger Linfo "Transaction committed successfully" [])
          (fun err =>
             logger Lerror "Error committing transaction" [DError err] ;;
             abort ;;
             throw err)
  end.

Definition dispose : M unit :=
  o <- this_session ;;
  match o with
  | None => ret tt
  | Some s =>
      logger Ldebug "Disposing transaction session" [] ;;
      session_call EndSession s ;;
      set_session None
  end.

Definition executeTransaction {T} (transactionFn : TransactionFunction T)
    : M T :=
  try_finally
    (try_catch
       (logger Ldebug "Starting transaction execution" [] ;;
        begin ;;
        result <- execute transactionFn ;;
        commit ;;
        logger Linfo "Transaction executed successfully" [] ;;
        ret result)
       (fun err =>
          logger Lerror "Transaction execution failed" [DError err] ;;
          abort ;;
          throw err))
    dispose.

End Methods.
End UnitOfWork.

(** ** [interface RetryOptions] and [DEFAULT_RETRY_OPTIONS] *)

(** The numbers of the options are counts and milliseconds; they are taken
    as integers that are doubles, and [maxRetries] as one below [2^53], so
    that the loop counter is exact.  Options with a fractional part are not
    covered. *)
Record RetryOptions : Type := {
  maxRetries : Z;
  initialDelayMs : Z;
  maxDelayMs : Z;
  backoffFactor : Z;
  retryableErrors : option (list string)
}.

Definition DEFAULT_RETRY_OPTIONS : RetryOptions :=
  {| maxRetries := 3;
     initialDelayMs := 100;
     maxDelayMs := 1000;
     backoffFactor := 2;
     retryableErrors :=
       Some ["TransientTransactionError"; "UnknownTransactionCommitResult"] |}.

(** ** Strings: [===] and [String.prototype.includes] *)

(** [s.startsWith(t)] *)
Fixpoint startsWith (s t : string) {struct t} : bool :=
  match t, s with
  | EmptyString, _ => true
  | String c t', String d s' => Ascii.eqb c d && startsWith s' t'
  | String _ _, EmptyString => false
  end.

(** [s.includes(t)]: [t] starts at some position of [s]. *)
Fixpoint includes (s t : string) : bool :=
  startsWith s t ||
  match s with
  | EmptyString => false
  | String _ s' => includes s' t
  end.

(** ** [class ResilientUnitOfWork extends UnitOfWork] *)

Module ResilientUnitOfWork.
Section Methods.

Variable connection : Connection.
Variable retryOptions : RetryOptions.

(** [error.name === errorType] *)
Definition name_is (err : JsError) (errorType : string) : bool :=
  match name err with
  | Some n => String.eqb n errorType
  | None => false
  end.

(** [error.message?.includes(errorType)], undefined counting as false *)
Definition message_includes (err : JsError) (errorType : string) : bool :=
  match message err with
  | Some m => includes m errorType
  | None => false
  end.

(** The callback of [some]: reading [error.name] throws when [error] is
    [null] or [undefined]. *)
Definition matches (err : JsError) (errorType : string) : Completion bool :=
  match err with
  | mkError _ _ =>
      Return (name_is err errorType || message_includes err errorType)
  | null => Throw (TypeError "null")
  | undefined => Throw (TypeError "undefined")
  end.

(** [errorTypes.some(callback)]: the callback is called on each element in
    turn until it answers true, and not at all on an empty list. *)
Fixpoint some (callback : string -> Completion bool) (errorTypes : list string)
    : Completion bool :=
  match errorTypes with
  | [] => Return false
  | errorType :: rest =>
      match callback errorType with
      | Throw e => Throw e
      | Return true => Return true
      | Return false => some callback rest
      end
  end.

Definition isRetryableError (err : JsError) : Completion bool :=
  match retryableErrors retryOptions with
  | None => Return false
  | Some errorTypes => some (matches err) errorTypes
  end.

Definition calculateBackoffDelay (retryCount : Z) : Number :=
  let delay :=
    Math_min
      (times (initialDelayMs retryOptions)
             (Math_pow (backoffFactor retryOptions) retryCount))
      (maxDelayMs retryOptions) in
  delay.

(** [delay(ms)] *)
Definition delay (ms : Number) : M unit := sleep ms.

(** The [for] loop from [attempt] on, with [remaining] iterations left before
    its test [attempt <= maxRetries] fails; [lastError] is the variable of
    that name, [None] while unassigned.  In the test of the catch block
    [isRetryableError] is called only when [attempt === maxRetries] is
    false, and what it throws leaves the block at once. *)
Fixpoint attempts {T} (transactionFn : TransactionFunction T)
    (remaining : nat) (attempt : Z) (lastError : option JsError) : M T :=
  match remaining with
  | O =>
      throw (match lastError with Some e => e | None => undefined end)
  | S remaining' =>
      try_catch
        ((if 0 <? attempt
          then logger Linfo "Retry attempt ${attempt} of ${this.retryOptions.maxRetries}"
                 [DNumber attempt; DNumber (maxRetries retryOptions)]
          else ret tt) ;;
         UnitOfWork.executeTransaction connection transactionFn)
        (fun err =>
           stop <-
             (if attempt =? maxRetries retryOptions then ret true
              else
                match isRetryableError err with
                | Return retryable => ret (negb retryable)
                | Throw typeError => throw typeError
                end) ;;
           if stop : bool
           then
             logger Lerror "Transaction failed after ${attempt} retries"
               [DNumber attempt; DError err;
                DNumber (maxRetries retryOptions)] ;;
             throw err
           else
             let delayMs := calculateBackoffDelay attempt in
             logger Lwarn "Retryable error occurred, retrying in ${delayMs}ms"
               [DNumber delayMs; DError err; DNumber attempt;
                DNumber (attempt + 1)] ;;
             delay delayMs ;;
             attempts transactionFn remaining' (attempt + 1) (Some err))
  end.

(** The loop runs for [attempt = 0, 1, ..., maxRetries]: [maxRetries + 1]
    iterations, none when [maxRetries] is negative. *)
Definition executeTransaction {T} (transactionFn : TransactionFunction T)
    : M T :=
  attempts transactionFn (Z.to_nat (maxRetries retryOptions + 1)) 0 None.

End Methods.
End ResilientUnitOfWork.

(** ** Words of the specification *)


(** How many times method [op] of session [s] was called in a history. *)
Definition is_call (op : SessionOp) (s : ClientSession) (ev : Event) : bool :=
  match ev with
  | SessionCall op' s' _ =>
      match op, op' with
      | StartTransaction, StartTransaction
      | CommitTransaction, CommitTransaction
      | AbortTransaction, AbortTransaction
      | EndSession, EndSession => Nat.eqb s s'
      | _, _ => false
      end
  | _ => false
  end.

Definition calls (op : SessionOp) (s : ClientSession) (h : list Event) : nat :=
  List.length (filter (is_call op s) h).

(** What a call added to the history: the events of [w'] that [w] did not
    have yet. *)
Definition since (w w' : World) : list Event :=
  skipn (List.length (history w)) (history w').

(** The delays of a history, in order. *)
Definition delays (h : list Event) : list Number :=
  flat_map (fun ev => match ev with Slept ms => [ms] | _ => [] end) h.

(** What a call added to the log. *)
Definition logged_since (w w' : World) : list LogEntry :=
  skipn (List.length (logged w)) (logged w').

(** [UnitOfWork.executeTransaction] opens every run of the lifecycle with
    the same debug entry, so the attempts made are counted by it. *)
Definition opens_attempt (entry : LogEntry) : bool :=
  match level entry, details entry with
  | Ldebug, [] => String.eqb (text entry) "Starting transaction execution"
  | _, _ => false
  end.

Definition attempts_made (l : list LogEntry) : nat :=
  List.length (filter opens_attempt l).

(** The start of an iteration of the retry loop: from the second attempt on
    the retry is announced in the log. *)
Definition announce (retryOptions : RetryOptions) (attempt : Z) (w : World)
    : World :=
  if 0 <? attempt
  then
    {| session := session w;
       history := history w;
       logged :=
         logged w ++
         [Log Linfo "Retry attempt ${attempt} of ${this.retryOptions.maxRetries}"
            [DNumber attempt; DNumber (maxRetries retryOptions)]] |}
  else w.

(** The end of an iteration that is retried: attempt [attempt] ended in [w]
    with the error [err]; the warning and the backoff delay are added. *)
Definition then_backoff (retryOptions : RetryOptions) (attempt : Z)
    (err : JsError) (w : World) : World :=
  let delayMs :=
    ResilientUnitOfWork.calculateBackoffDelay retryOptions attempt in
  {| session := session w;
     history := history w ++ [Slept delayMs];
     logged :=
       logged w ++
       [Log Lwarn "Retryable error occurred, retrying in ${delayMs}ms"
          [DNumber delayMs; DError err; DNumber attempt;
           DNumber (attempt + 1)]] |}.

(** The state in which the lifecycle of attempt [attempt + 1] starts when
    attempt [attempt] ended in [w] with the error [err] and is retried. *)
Definition then_retry (retryOptions : RetryOptions) (attempt : Z)
    (err : JsError) (w : World) : World :=
  announce retryOptions (attempt + 1) (then_backoff retryOptions attempt err w).

(** The state in which the executor gives up after attempt [attempt] ended
    in [w] with the error [err]: only the error entry has been added. *)
Definition then_give_up (retryOptions : RetryOptions) (attempt : Z)
    (err : JsError) (w : World) : World :=
  {| session := session w;
     history := history w;
     logged :=
       logged w ++
       [Log Lerror "Transaction failed after ${attempt} retries"
          [DNumber attempt; DError err;
           DNumber (maxRetries retryOptions)]] |}.

(** ** Stores and units of work to run the code on *)

(** The identity of the next session: how many sessions were handed out. *)
Definition sessions_started (h : list Event) : nat :=
  List.length
    (filter (fun ev =>
               match ev with StartSession (Return _) => true | _ => false end)
            h).

(** The transaction state of session [s] after one more event.  A call that
    throws leaves it as it was, except that with [commit_settles] a commit
    ends the transaction even when it throws, as in a driver that marks the
    transaction committed whatever the server answers. *)
Definition txn_step (commit_settles : bool) (s : ClientSession)
    (active : bool) (ev : Event) : bool :=
  match ev with
  | SessionCall op s' failure =>
      if Nat.eqb s s' then
        match op, failure with
        | StartTransaction, None => true
        | CommitTransaction, None => false
        | CommitTransaction, Some _ => if commit_settles then false else active
        | AbortTransaction, None => false
        | EndSession, None => false
        | _, _ => active
        end
      else active
  | _ => active
  end.

(** A store whose methods throw according to [fails]. *)
Definition scripted (fails : SessionOp -> option JsError)
    (commit_settles : bool) : Connection :=
  {| startSession := fun h => Return (sessions_started h);
     sessionOp := fun _ op _ => fails op;
     inTransaction := fun h s => fold_left (txn_step commit_settles s) h false |}.

Definition reliable : Connection := scripted (fun _ => None) false.

Definition transient : JsError :=
  mkError (Some "TransientTransactionError") (Some "write conflict").

Definition fatal : JsError := Error "duplicate key".

Definition commit_failure : JsError :=
  mkError (Some "MongoServerError") (Some "commit failed").

Definition abort_failure : JsError := Error "abort failed".

Definition endSession_failure : JsError := Error "endSession failed".

Definition always_returns (v : nat) : TransactionFunction nat :=
  fun _ _ => Return v.

Definition always_throws (e : JsError) : TransactionFunction nat :=
  fun _ _ => Throw e.

(** A fresh manager. *)
Definition idle : World := {| session := None; history := []; logged := [] |}.

(** A manager after a successful [begin] on a reliable store. *)
Definition busy : World :=
  {| session := Some 0%nat;
     history := [StartSession (Return 0%nat);
                 SessionCall StartTransaction 0%nat None];
     logged := [Log Ldebug "Starting new transaction session" []] |}.

Definition commit_throws (op : SessionOp) : option JsError :=
  match op with CommitTransaction => Some commit_failure | _ => None end.

Definition endSession_throws (op : SessionOp) : option JsError :=
  match op with EndSession => Some endSession_failure | _ => None end.

Definition abort_throws (op : SessionOp) : option JsError :=
  match op with AbortTransaction => Some abort_failure | _ => None end.

Definition abort_and_endSession_throw (op : SessionOp) : option JsError :=
  match op with
  | AbortTransaction => Some abort_failure
  | EndSession => Some endSession_failure
  | _ => None
  end.

(** ** Driving the lifecycle by hand *)

(** The four calls a caller makes when it does not use [executeTransaction]:
    [await uow.begin(); const r = await uow.execute(fn); await uow.commit();
    await uow.dispose(); return r]. *)
Definition by_hand {T} (connection : Connection)
    (transactionFn : TransactionFunction T) : M T :=
  UnitOfWork.begin connection ;;
  result <- UnitOfWork.execute transactionFn ;;
  UnitOfWork.commit connection ;;
  UnitOfWork.dispose connection ;;
  ret result.

(** More stores and units of work to run the code on. *)

Definition connect_failure : JsError :=
  mkError (Some "MongoNetworkError") (Some "connection refused").

(** A store that hands out no session. *)
Definition unreachable : Connection :=
  {| startSession := fun _ => Throw connect_failure;
     sessionOp := fun _ _ _ => None;
     inTransaction := fun _ _ => false |}.

Definition startTransaction_throws (op : SessionOp) : option JsError :=
  match op with StartTransaction => Some fatal | _ => None end.

(** How many times the unit of work has been run. *)
Definition invocations (h : list Event) : nat :=
  List.length
    (filter (fun ev => match ev with Invoke _ _ => true | _ => false end) h).

(** A unit of work that throws a transient error until it has been run [n]
    times, and then returns [v]. *)
Definition succeeds_after (n v : nat) : TransactionFunction nat :=
  fun h _ => if Nat.ltb (invocations h) n then Throw transient else Return v.

(** The time a history has spent sleeping, in milliseconds, when all its
    delays are finite numbers. *)
Definition total_delay (h : list Event) : option Z :=
  fold_right
    (fun d total =>
       match d, total with
       | Finite z, Some t => Some (z + t)
       | _, _ => None
       end)
    (Some 0) (delays h).

(** A delay that does not exceed [cap] milliseconds. *)
Definition at_most (cap : Z) (d : Number) : Prop :=
  match d with
  | Finite z => z <= cap
  | MinusInfinity => True
  | PlusInfinity | NaN => False
  end.

(** Options with the defaults but for [maxRetries]. *)
Definition with_maxRetries (n : Z) : RetryOptions :=
  {| maxRetries := n;
     initialDelayMs := initialDelayMs DEFAULT_RETRY_OPTIONS;
     maxDelayMs := maxDelayMs DEFAULT_RETRY_OPTIONS;
     backoffFactor := backoffFactor DEFAULT_RETRY_OPTIONS;
     retryableErrors := retryableErrors DEFAULT_RETRY_OPTIONS |}.

Definition endSession_throws_transient (op : SessionOp) : option JsError :=
  match op with EndSession => Some transient | _ => None end.


(** * Properties *)

(** ** Strings *)



(** ** Retry classification and backoff *)





(** Rounding to a double does not take a number below a double it was
    above. *)
Lemma nearest_double_above (c z : Z) :
  0 <= c < 2 ^ 53 -> c <= z ->
  nearest_double z = PlusInfinity \/
  exists z', nearest_double z = Finite z' /\ c <= z'.
Proof.
  intros Hc Hz. unfold nearest_double.
  destruct (Z.abs z <? 2 ^ 53) eqn:Hsmall; [right; eauto|].
  apply Z.ltb_ge in Hsmall.
  assert (Hpos : 2 ^ 53 <= z) by lia.
  replace (Z.abs z) with z in * by lia.
  set (shift := Z.log2 z - 52).
  assert (Hlog : 53 <= Z.log2 z).
  { change 53 with (Z.log2 (2 ^ 53)). now apply Z.log2_le_mono. }
  assert (Hshift : 0 < shift) by (unfold shift; lia).
  assert (Hq : 2 ^ 52 <= Z.shiftr z shift).
  { rewrite Z.shiftr_div_pow2 by lia.
    apply Z.div_le_lower_bound; [apply Z.pow_pos_nonneg; lia|].
    rewrite <- Z.pow_add_r by lia.
    replace (shift + 52) with (Z.log2 z) by (unfold shift; lia).
    apply Z.log2_spec. lia. }
  set (q := Z.shiftr z shift) in *.
  set (q' := if _ : bool then q + 1 else q).
  assert (Hq' : 2 ^ 52 <= q') by (unfold q'; destruct (_ || _); lia).
  assert (Hm : 2 ^ 53 <= Z.shiftl q' shift).
  { rewrite Z.shiftl_mul_pow2 by lia.
    assert (2 ^ 1 <= 2 ^ shift) by (apply Z.pow_le_mono_r; lia).
    change (2 ^ 53) with (2 ^ 52 * 2 ^ 1). nia. }
  destruct (2 ^ 1024 <=? Z.shiftl q' shift).
  - replace (z <? 0) with false by (symmetry; apply Z.ltb_ge; lia).
    now left.
  - right. eexists. split; [reflexivity|].
    replace (Z.sgn z) with 1 by (symmetry; apply Z.sgn_pos; lia). lia.
Qed.


(** ** The lifecycle methods one by one *)

(** C8. In every state of a manager that holds a session (so after any
    sequence of operations that leaves one active), [begin] throws the
    active-session error; the store is not contacted, the session field still
    holds the same session, and the only effect is one warning in the log. *)
Theorem begin_while_active
    (connection : Connection) (w : World) (s : ClientSession) :
  session w = Some s ->
  UnitOfWork.begin connection w =
    (Throw (Error "A session is already active"),
     {| session := Some s;
        history := history w;
        logged := logged w ++ [Log Lwarn "A session is already active" []] |}).
Proof.
  intros Hs. unfold UnitOfWork.begin, bind, UnitOfWork.this_session.
  rewrite Hs. unfold logger, throw. now rewrite Hs.
Qed.

(** C9. [dispose] twice in a row is [dispose] once, in the state it leaves,
    in what it asks of the store and in how it completes; after a [dispose]
    that returned, a second one changes nothing, and neither does a
    [dispose] with no session. *)
Theorem dispose_idempotent (connection : Connection) (w : World) :
  (UnitOfWork.dispose connection ;; UnitOfWork.dispose connection) w =
    UnitOfWork.dispose connection w /\
  (forall w', UnitOfWork.dispose connection w = (Return tt, w') ->
     UnitOfWork.dispose connection w' = (Return tt, w')) /\
  (session w = None -> UnitOfWork.dispose connection w = (Return tt, w)).
Proof.
  unfold UnitOfWork.dispose, bind, UnitOfWork.this_session, logger,
    UnitOfWork.session_call, set_session, ret, emit.
  destruct w as [[s|] h l]; cbn [session history logged].
  - destruct (sessionOp connection h EndSession s) as [e|]; cbn.
    + repeat split; [intros w' H; discriminate | discriminate].
    + repeat split; [|discriminate].
      intros w' H. injection H as <-. reflexivity.
  - repeat split. intros w' H. injection H as <-. reflexivity.
Qed.

(** Unfolds the methods of [UnitOfWork] down to the answers of the store. *)
Ltac unfold_methods :=
  unfold UnitOfWork.executeTransaction, UnitOfWork.commit, UnitOfWork.abort,
    UnitOfWork.dispose, UnitOfWork.execute, UnitOfWork.begin,
    UnitOfWork.call_transactionFn, UnitOfWork.connection_startSession,
    UnitOfWork.session_call, UnitOfWork.session_inTransaction,
    UnitOfWork.this_session, try_finally, try_catch, bind, ret, throw,
    logger, set_session, emit in *;
  cbn [session history logged fst snd negb] in *.

(** Uses a known answer of the store or of the unit of work, or splits on
    the next one. *)
Ltac next_answer :=
  match goal with
  | H : sessionOp ?c ?h ?op ?s = _ |- context [sessionOp ?c ?h ?op ?s] =>
      rewrite H
  | H : inTransaction ?c ?h ?s = _ |- context [inTransaction ?c ?h ?s] =>
      rewrite H
  | H : startSession ?c ?h = _ |- context [startSession ?c ?h] =>
      rewrite H
  | |- context [match sessionOp ?c ?h ?op ?s with _ => _ end] =>
      let E := fresh "Hop" in destruct (sessionOp c h op s) eqn:E
  | |- context [inTransaction ?c ?h ?s] =>
      let E := fresh "Hin" in destruct (inTransaction c h s) eqn:E
  | |- context [match startSession ?c ?h with _ => _ end] =>
      let E := fresh "Hss" in destruct (startSession c h) eqn:E
  end.

Ltac run_methods :=
  unfold_methods;
  repeat (cbn [session history logged fst snd negb UnitOfWork.failure_of] in *;
          try next_answer).

(** C3, as the code has it. When [commitTransaction] throws in a state with
    an active session and transaction, [commit] throws that same error and
    keeps the session; it calls [abortTransaction] once, after the failed
    commit, if the session still reports a transaction then, and not at all
    if it no longer does.  With no session, or no transaction on it,
    [commit] returns leaving state and history as they were. *)
Theorem commit_failure_aborts (connection : Connection) (w : World) :
  (forall s e,
     session w = Some s ->
     inTransaction connection (history w) s = true ->
     sessionOp connection (history w) CommitTransaction s = Some e ->
     let h1 := history w ++ [SessionCall CommitTransaction s (Some e)] in
     exists w',
       UnitOfWork.commit connection w = (Throw e, w') /\
       session w' = Some s /\
       (inTransaction connection h1 s = true ->
        history w' =
          h1 ++ [SessionCall AbortTransaction s
                   (sessionOp connection h1 AbortTransaction s)]) /\
       (inTransaction connection h1 s = false -> history w' = h1)) /\
  (session w = None \/
   (exists s, session w = Some s /\
              inTransaction connection (history w) s = false) ->
   UnitOfWork.commit connection w = (Return tt, w)).
Proof.
  destruct w as [o h l]; cbn [session history logged]. split.
  - intros s e -> Hin Hop. run_methods;
      (eexists; split; [reflexivity|]; cbn;
       split; [reflexivity|]; split; intros; congruence).
  - intros [-> | [s [-> Hin]]]; run_methods; reflexivity.
Qed.

Lemma skipn_history (h evs : list Event) :
  skipn (List.length h) (h ++ evs) = evs.
Proof.
  induction h as [|x h IH]; [reflexivity | exact IH].
Qed.

(** Brings [since] down to the list of events a run has appended. *)
Ltac new_events :=
  unfold since in *; cbn [session history logged] in *;
  rewrite <- ?app_assoc in *;
  rewrite ?skipn_history in *;
  try (rewrite <- (app_nil_r (history _)), skipn_history in * );
  cbn [app] in *.

(** ** The composite [executeTransaction] *)

(** C1, as the code has it. From a state with no session, once
    [startSession] has given a session, whatever the unit of work, the
    commit and the abort do, [endSession] is called on that session exactly
    once, as the last call of the run. If that call returns, the session
    field is empty when [executeTransaction] completes; if it throws, the
    field keeps the session and that error is what the caller gets. *)
Theorem executeTransaction_disposes
    (connection : Connection) (T : Type) (transactionFn : TransactionFunction T)
    (w : World) (s : ClientSession) :
  session w = None ->
  startSession connection (history w) = Return s ->
  let (r, w') := UnitOfWork.executeTransaction connection transactionFn w in
  exists pre failure,
    since w w' = pre ++ [SessionCall EndSession s failure] /\
    calls EndSession s pre = 0%nat /\
    calls EndSession s (since w w') = 1%nat /\
    (failure = None -> session w' = None) /\
    (forall e, failure = Some e -> session w' = Some s /\ r = Throw e).
Proof.
  destruct w as [o h l]; cbn [session history logged].
  intros -> Hss. unfold_methods. rewrite Hss.
  cbn [session history logged fst snd negb UnitOfWork.failure_of].
  repeat (cbn [session history logged fst snd negb UnitOfWork.failure_of];
          try next_answer);
  try (destruct (transactionFn _ s) eqn:Hfn);
  repeat (cbn [session history logged fst snd negb UnitOfWork.failure_of];
          try next_answer);
  new_events;
  match goal with
  | |- exists pre failure, ?evs = _ /\ _ =>
      exists (removelast evs); eexists;
      (split; [cbn; reflexivity|]);
      unfold calls; cbn; rewrite ?Nat.eqb_refl; cbn;
      repeat split; intros; congruence
  end.
Qed.

(** C10. On a manager that already holds a session [s], [begin] throws and
    the unit of work is not run and no session is acquired; the run then
    consists of one [abortTransaction] on [s] if it reports a transaction,
    followed by [endSession] on [s].  If [endSession] returns, the session
    field is emptied and the active-session error is thrown; if it throws,
    the field keeps [s] and the error of [endSession] is thrown. *)
Theorem executeTransaction_while_active
    (connection : Connection) (T : Type) (transactionFn : TransactionFunction T)
    (w : World) (s : ClientSession) :
  session w = Some s ->
  let (r, w') := UnitOfWork.executeTransaction connection transactionFn w in
  let aborted :=
    if inTransaction connection (history w) s
    then [SessionCall AbortTransaction s
            (sessionOp connection (history w) AbortTransaction s)]
    else [] in
  let failure := sessionOp connection (history w ++ aborted) EndSession s in
  since w w' = aborted ++ [SessionCall EndSession s failure] /\
  match failure with
  | None => r = Throw (Error "A session is already active") /\ session w' = None
  | Some e => r = Throw e /\ session w' = Some s
  end.
Proof.
  destruct w as [o h l]; cbn [session history logged].
  intros ->. destruct (inTransaction connection h s) eqn:Hin;
    cbn beta iota zeta; rewrite ?app_nil_r;
    run_methods; new_events; cbn; repeat split; congruence.
Qed.

(** C7, as the code has it. [abort] always returns and keeps the session
    field; when [abortTransaction] throws, the error is logged and goes no
    further.  In [executeTransaction], when the unit of work or the commit
    threw [e] and an [abortTransaction] threw as well, the caller gets [e],
    provided the final [endSession] returned. *)
Theorem abort_never_masks (connection : Connection) :
  (forall w,
     exists w',
       UnitOfWork.abort connection w = (Return tt, w') /\
       session w' = session w /\
       forall s e,
         session w = Some s ->
         inTransaction connection (history w) s = true ->
         sessionOp connection (history w) AbortTransaction s = Some e ->
         history w' = history w ++ [SessionCall AbortTransaction s (Some e)] /\
         logged w' =
           logged w ++ [Log Ldebug "Aborting transaction" [];
                        Log Lerror "Error aborting transaction" [DError e]]) /\
  (forall (T : Type) (transactionFn : TransactionFunction T) w s e e',
     let (r, w') := UnitOfWork.executeTransaction connection transactionFn w in
     In (Invoke s (Some e)) (since w w') \/
     In (SessionCall CommitTransaction s (Some e)) (since w w') ->
     In (SessionCall AbortTransaction s (Some e')) (since w w') ->
     In (SessionCall EndSession s None) (since w w') ->
     r = Throw e).
Proof.
  split.
  - intros [o h l]. destruct o as [s|]; run_methods;
      (eexists; split; [reflexivity|]; split; [reflexivity|]);
      cbn; intros s' e' Hs Hin' Hop'; try congruence.
    all: injection Hs as <-; rewrite <- ?app_assoc; cbn [app].
    all: split; congruence.
  - intros T transactionFn [o h l] s e e'.
    destruct o as [s0|]; run_methods;
      try (match goal with
           | |- context [transactionFn ?h ?x] =>
               destruct (transactionFn h x) eqn:Hfn
           end);
      repeat (cbn [session history logged fst snd negb UnitOfWork.failure_of];
              try next_answer);
      new_events; cbn [In]; intros H1 H2 H3;
      repeat match goal with
             | H : _ \/ _ |- _ => destruct H
             | H : False |- _ => destruct H
             | H : _ = _ |- _ => discriminate H
             | H : _ = _ |- _ => injection H as; subst
             end;
      try reflexivity; try congruence.
Qed.

(** ** The effects of one run of the lifecycle *)

Lemma skipn_logged (l l' : list LogEntry) :
  skipn (List.length l) (l ++ l') = l'.
Proof.
  induction l as [|x l IH]; [reflexivity | exact IH].
Qed.

Lemma attempts_made_app (l l' : list LogEntry) :
  attempts_made (l ++ l') = (attempts_made l + attempts_made l')%nat.
Proof.
  unfold attempts_made. now rewrite filter_app, length_app.
Qed.

Lemma delays_app (h h' : list Event) : delays (h ++ h') = delays h ++ delays h'.
Proof.
  unfold delays. now rewrite flat_map_app.
Qed.

(** A run of [UnitOfWork.executeTransaction] only adds to history and log;
    it adds exactly one opening entry and sleeps never. *)
Lemma executeTransaction_effects
    (connection : Connection) (T : Type) (transactionFn : TransactionFunction T)
    (w : World) :
  let w' := snd (UnitOfWork.executeTransaction connection transactionFn w) in
  exists evs l,
    history w' = history w ++ evs /\ delays evs = [] /\
    logged w' = logged w ++ l /\ attempts_made l = 1%nat.
Proof.
  destruct w as [o h l0]. destruct o as [s0|]; run_methods;
    try (match goal with
         | |- context [transactionFn ?h ?x] =>
             destruct (transactionFn h x) eqn:Hfn
         end);
    repeat (cbn [session history logged fst snd negb UnitOfWork.failure_of];
            try next_answer);
    rewrite <- ?app_assoc; cbn [app];
    (eexists; eexists; split; [reflexivity|]; split; [reflexivity|];
     split; [reflexivity|]; reflexivity).
Qed.

(** ** The retry loop *)

Section RetryLoop.

Variable connection : Connection.
Variable retryOptions : RetryOptions.
Variable T : Type.
Variable transactionFn : TransactionFunction T.

Let lifecycle := UnitOfWork.executeTransaction connection transactionFn.
Let loop := ResilientUnitOfWork.attempts connection retryOptions transactionFn.
Let retryable := ResilientUnitOfWork.isRetryableError retryOptions.

(** One iteration of the loop. *)
Lemma loop_step (remaining : nat) (attempt : Z) (lastError : option JsError)
    (w : World) :
  loop (S remaining) attempt lastError w =
  match lifecycle (announce retryOptions attempt w) with
  | (Return a, w') => (Return a, w')
  | (Throw err, w') =>
      if attempt =? maxRetries retryOptions
      then (Throw err, then_give_up retryOptions attempt err w')
      else
        match retryable err with
        | Throw typeError => (Throw typeError, w')
        | Return false => (Throw err, then_give_up retryOptions attempt err w')
        | Return true =>
            loop remaining (attempt + 1) (Some err)
              (then_backoff retryOptions attempt err w')
        end
  end.
Proof.
  subst loop lifecycle retryable. cbn [ResilientUnitOfWork.attempts].
  unfold try_catch at 1. unfold bind at 1. unfold announce.
  destruct (0 <? attempt); cbn [logger ret].
  all: destruct (UnitOfWork.executeTransaction connection transactionFn _)
    as [[a|err] w']; [reflexivity|].
  all: unfold bind at 1; destruct (attempt =? maxRetries retryOptions);
    [reflexivity|].
  all: destruct (ResilientUnitOfWork.isRetryableError retryOptions err)
    as [[|]|typeError]; reflexivity.
Qed.

End RetryLoop.

Lemma lifecycle_effects
    (connection : Connection) (T : Type) (transactionFn : TransactionFunction T)
    (w w' : World) (r : Completion T) :
  UnitOfWork.executeTransaction connection transactionFn w = (r, w') ->
  exists evs l,
    history w' = history w ++ evs /\ delays evs = [] /\
    logged w' = logged w ++ l /\ attempts_made l = 1%nat.
Proof.
  intros H.
  pose proof (executeTransaction_effects connection T transactionFn w) as E.
  rewrite H in E. exact E.
Qed.

(** Names the state in which the next run of the lifecycle starts. *)
Ltac starts_at w :=
  match goal with
  | |- context [UnitOfWork.executeTransaction _ _ ?x] => change x with w
  end.

(** Four runs of the lifecycle that fail, the first three with errors
    classified as retryable, with [maxRetries = 3]: the executor throws the
    error of the fourth run and stops there. *)
Lemma four_failing_runs
    (connection : Connection) (retryOptions : RetryOptions) (T : Type)
    (transactionFn : TransactionFunction T)
    (w0 w1 w2 w3 w4 : World) (e0 e1 e2 e3 : JsError) :
  maxRetries retryOptions = 3 ->
  UnitOfWork.executeTransaction connection transactionFn w0 = (Throw e0, w1) ->
  ResilientUnitOfWork.isRetryableError retryOptions e0 = Return true ->
  UnitOfWork.executeTransaction connection transactionFn
    (then_retry retryOptions 0 e0 w1) = (Throw e1, w2) ->
  ResilientUnitOfWork.isRetryableError retryOptions e1 = Return true ->
  UnitOfWork.executeTransaction connection transactionFn
    (then_retry retryOptions 1 e1 w2) = (Throw e2, w3) ->
  ResilientUnitOfWork.isRetryableError retryOptions e2 = Return true ->
  UnitOfWork.executeTransaction connection transactionFn
    (then_retry retryOptions 2 e2 w3) = (Throw e3, w4) ->
  let w' := then_give_up retryOptions 3 e3 w4 in
  ResilientUnitOfWork.executeTransaction connection retryOptions transactionFn w0
    = (Throw e3, w') /\
  attempts_made (logged_since w0 w') = 4%nat /\
  delays (since w0 w') =
    map (ResilientUnitOfWork.calculateBackoffDelay retryOptions) [0; 1; 2].
Proof.
  intros Hm H0 R0 H1 R1 H2 R2 H3 w'. subst w'. split.
  - unfold ResilientUnitOfWork.executeTransaction. rewrite Hm.
    change (Z.to_nat (3 + 1)) with 4%nat.
    rewrite loop_step. change (announce retryOptions 0 w0) with w0.
    rewrite H0, Hm, R0. cbn [Z.eqb].
    rewrite loop_step. starts_at (then_retry retryOptions 0 e0 w1).
    rewrite H1, Hm, R1. cbn [Z.eqb Z.add Pos.eqb].
    rewrite loop_step. starts_at (then_retry retryOptions 1 e1 w2).
    rewrite H2, Hm, R2. cbn [Z.eqb Z.add Pos.add Pos.succ Pos.eqb].
    rewrite loop_step. starts_at (then_retry retryOptions 2 e2 w3).
    rewrite H3, Hm. reflexivity.
  - apply lifecycle_effects in H0 as (v0 & l0 & Hh0 & Hd0 & Hl0 & Ha0).
    apply lifecycle_effects in H1 as (v1 & l1 & Hh1 & Hd1 & Hl1 & Ha1).
    apply lifecycle_effects in H2 as (v2 & l2 & Hh2 & Hd2 & Hl2 & Ha2).
    apply lifecycle_effects in H3 as (v3 & l3 & Hh3 & Hd3 & Hl3 & Ha3).
    unfold then_retry, announce, then_backoff in *.
    cbn [Z.add Z.ltb Z.compare Pos.add Pos.succ session history logged] in *.
    unfold since, logged_since, then_give_up. cbn [history logged].
    rewrite Hh3, Hh2, Hh1, Hh0, Hl3, Hl2, Hl1, Hl0.
    rewrite <- !app_assoc, skipn_history, skipn_logged.
    rewrite !attempts_made_app, !delays_app, Ha0, Ha1, Ha2, Ha3.
    rewrite Hd0, Hd1, Hd2, Hd3. split; reflexivity.
Qed.

Lemma invocations_app (h h' : list Event) :
  invocations (h ++ h') = (invocations h + invocations h')%nat.
Proof.
  unfold invocations. now rewrite filter_app, length_app.
Qed.

Lemma then_retry_state
    (retryOptions : RetryOptions) (attempt : Z) (err : JsError) (w : World) :
  session (then_retry retryOptions attempt err w) = session w /\
  history (then_retry retryOptions attempt err w) =
    history w ++
    [Slept (ResilientUnitOfWork.calculateBackoffDelay retryOptions attempt)].
Proof.
  unfold then_retry, announce. destruct (0 <? attempt + 1); split; reflexivity.
Qed.

(** One run of the lifecycle in which the unit of work is reached and
    throws, on a manager without a session and a store whose [endSession]
    does not throw: the run throws the error of the unit of work, which was
    run once, and leaves the manager without a session. *)
Lemma failing_unit_run
    (connection : Connection) (T : Type) (transactionFn : TransactionFunction T)
    (w : World) (s : ClientSession) (e : JsError) :
  session w = None ->
  startSession connection (history w) = Return s ->
  sessionOp connection (history w ++ [StartSession (Return s)])
    StartTransaction s = None ->
  transactionFn
    (history w ++ [StartSession (Return s);
                   SessionCall StartTransaction s None]) s = Throw e ->
  (forall h, sessionOp connection h EndSession s = None) ->
  exists w1 after,
    UnitOfWork.executeTransaction connection transactionFn w = (Throw e, w1) /\
    session w1 = None /\
    history w1 =
      history w ++
      [StartSession (Return s); SessionCall StartTransaction s None;
       Invoke s (Some e)] ++ after /\
    invocations after = 0%nat.
Proof.
  destruct w as [o h l]; cbn [session history logged].
  intros -> Hss Htxn Hfn Hend.
  replace (h ++ [StartSession (Return s); SessionCall StartTransaction s None])
    with ((h ++ [StartSession (Return s)]) ++
          [SessionCall StartTransaction s None]) in Hfn
    by now rewrite <- app_assoc.
  unfold_methods. rewrite Hss.
  cbn [session history logged fst snd negb UnitOfWork.failure_of].
  rewrite Htxn.
  cbn [session history logged fst snd negb UnitOfWork.failure_of].
  rewrite Hfn.
  repeat (cbn [session history logged fst snd negb UnitOfWork.failure_of];
          try next_answer);
    try (rewrite Hend in *; discriminate);
    eexists; eexists; (split; [reflexivity|]); (split; [reflexivity|]);
    cbn [history]; rewrite <- ?app_assoc; cbn [app];
    (split; [reflexivity|]); reflexivity.
Qed.

(** C2, as the code has it. With [maxRetries = 3], on a manager without a
    session and a store that hands out a session and starts a transaction
    at every attempt, when the unit of work throws, each time it is run, an
    error classified as retryable, and the [endSession] of every attempt
    returns: [executeTransaction] runs the lifecycle, and in it the unit of
    work, exactly four times, waits the three backoff delays in between,
    and then throws the very error the unit of work threw at its fourth
    run. *)
Theorem retries_exhausted
    (connection : Connection) (retryOptions : RetryOptions) (T : Type)
    (transactionFn : TransactionFunction T) (w : World) :
  maxRetries retryOptions = 3 ->
  session w = None ->
  (forall h, exists s, startSession connection h = Return s) ->
  (forall h s, sessionOp connection h StartTransaction s = None) ->
  (forall h s, sessionOp connection h EndSession s = None) ->
  (forall h s, exists e,
     transactionFn h s = Throw e /\
     ResilientUnitOfWork.isRetryableError retryOptions e = Return true) ->
  exists e w' s before after,
    ResilientUnitOfWork.executeTransaction connection retryOptions
      transactionFn w = (Throw e, w') /\
    session w' = None /\
    attempts_made (logged_since w w') = 4%nat /\
    since w w' = before ++ Invoke s (Some e) :: after /\
    invocations before = 3%nat /\
    invocations after = 0%nat /\
    delays (since w w') =
      map (ResilientUnitOfWork.calculateBackoffDelay retryOptions) [0; 1; 2].
Proof.
  intros Hm Hs Hstart Htxn Hend Hfn.
  assert (Hrun : forall w0, session w0 = None ->
            exists e w1 s after,
              UnitOfWork.executeTransaction connection transactionFn w0
                = (Throw e, w1) /\
              ResilientUnitOfWork.isRetryableError retryOptions e
                = Return true /\
              session w1 = None /\
              history w1 =
                history w0 ++
                [StartSession (Return s); SessionCall StartTransaction s None;
                 Invoke s (Some e)] ++ after /\
              invocations after = 0%nat).
  { intros w0 Hs0. destruct (Hstart (history w0)) as [s Hss].
    destruct (Hfn (history w0 ++ [StartSession (Return s);
                                  SessionCall StartTransaction s None]) s)
      as (e & He & Hr).
    destruct (failing_unit_run connection T transactionFn w0 s e Hs0 Hss
                (Htxn _ _) He (fun h => Hend h s))
      as (w1 & after & Hrun & Hs1 & Hh1 & Ha1).
    exists e, w1, s, after. repeat split; assumption. }
  destruct (Hrun w Hs) as (e0 & w1 & s0 & a0 & H0 & R0 & Hs1 & Hh1 & Ha1).
  destruct (then_retry_state retryOptions 0 e0 w1) as [Hrs1 Hrh1].
  destruct (Hrun (then_retry retryOptions 0 e0 w1))
    as (e1 & w2 & s1 & a1 & H1 & R1 & Hs2 & Hh2 & Ha2); [congruence|].
  destruct (then_retry_state retryOptions 1 e1 w2) as [Hrs2 Hrh2].
  destruct (Hrun (then_retry retryOptions 1 e1 w2))
    as (e2 & w3 & s2 & a2 & H2 & R2 & Hs3 & Hh3 & Ha3); [congruence|].
  destruct (then_retry_state retryOptions 2 e2 w3) as [Hrs3 Hrh3].
  destruct (Hrun (then_retry retryOptions 2 e2 w3))
    as (e3 & w4 & s3 & a3 & H3 & R3 & Hs4 & Hh4 & Ha4); [congruence|].
  destruct (four_failing_runs connection retryOptions T transactionFn
              w w1 w2 w3 w4 e0 e1 e2 e3 Hm H0 R0 H1 R1 H2 R2 H3)
    as (Hexec & Hmade & Hslept).
  set (run0 := [StartSession (Return s0); SessionCall StartTransaction s0 None;
                Invoke s0 (Some e0)] ++ a0) in *.
  set (run1 := [StartSession (Return s1); SessionCall StartTransaction s1 None;
                Invoke s1 (Some e1)] ++ a1) in *.
  set (run2 := [StartSession (Return s2); SessionCall StartTransaction s2 None;
                Invoke s2 (Some e2)] ++ a2) in *.
  set (sleep0 := [Slept (ResilientUnitOfWork.calculateBackoffDelay
                           retryOptions 0)]) in *.
  set (sleep1 := [Slept (ResilientUnitOfWork.calculateBackoffDelay
                           retryOptions 1)]) in *.
  set (sleep2 := [Slept (ResilientUnitOfWork.calculateBackoffDelay
                           retryOptions 2)]) in *.
  exists e3, (then_give_up retryOptions 3 e3 w4), s3,
    (run0 ++ sleep0 ++ run1 ++ sleep1 ++ run2 ++ sleep2 ++
     [StartSession (Return s3); SessionCall StartTransaction s3 None]),
    a3.
  split; [exact Hexec|]. split; [exact Hs4|]. split; [exact Hmade|].
  split; [|split; [|split; [exact Ha4 | exact Hslept]]].
  - unfold since. cbn [then_give_up history].
    rewrite Hh4, Hrh3, Hh3, Hrh2, Hh2, Hrh1, Hh1.
    rewrite <- !app_assoc, skipn_history. reflexivity.
  - subst run0 run1 run2 sleep0 sleep1 sleep2.
    rewrite !invocations_app, Ha1, Ha2, Ha3. reflexivity.
Qed.

(** X23. With a negative [maxRetries] the loop body never runs: no attempt
    is made, nothing is asked of the store or written to the log, and the
    unassigned [lastError] is thrown. *)
Lemma no_attempt_when_negative
    (connection : Connection) (retryOptions : RetryOptions) (T : Type)
    (transactionFn : TransactionFunction T) (w : World) :
  maxRetries retryOptions < 0 ->
  ResilientUnitOfWork.executeTransaction connection retryOptions transactionFn w
    = (@Throw T undefined, w).
Proof.
  intros Hm. unfold ResilientUnitOfWork.executeTransaction.
  replace (Z.to_nat (maxRetries retryOptions + 1)) with 0%nat by lia.
  reflexivity.
Qed.

(** When the first run of the lifecycle throws an error on which
    [isRetryableError] answers false, the executor throws it at once. *)
Lemma first_run_not_retryable
    (connection : Connection) (retryOptions : RetryOptions) (T : Type)
    (transactionFn : TransactionFunction T) (w w1 : World) (e : JsError) :
  0 <= maxRetries retryOptions ->
  UnitOfWork.executeTransaction connection transactionFn w = (Throw e, w1) ->
  ResilientUnitOfWork.isRetryableError retryOptions e = Return false ->
  let w' := then_give_up retryOptions 0 e w1 in
  ResilientUnitOfWork.executeTransaction connection retryOptions transactionFn w
    = (Throw e, w') /\
  attempts_made (logged_since w w') = 1%nat /\
  delays (since w w') = [].
Proof.
  intros Hm H0 R0 w'. subst w'. split.
  - unfold ResilientUnitOfWork.executeTransaction.
    destruct (Z.to_nat (maxRetries retryOptions + 1)) as [|k] eqn:Hk; [lia|].
    rewrite loop_step. change (announce retryOptions 0 w) with w.
    rewrite H0, R0. now destruct (0 =? maxRetries retryOptions).
  - apply lifecycle_effects in H0 as (v0 & l0 & Hh0 & Hd0 & Hl0 & Ha0).
    unfold since, logged_since, then_give_up. cbn [history logged].
    rewrite Hh0, Hl0, <- !app_assoc, skipn_history, skipn_logged.
    rewrite attempts_made_app, Ha0, Hd0. split; reflexivity.
Qed.

(** C6, as the code has it. Whatever [maxRetries] lets a first attempt be
    made, when at that attempt the unit of work is reached and throws an
    error on which [isRetryableError] answers false, and the [endSession] of
    the attempt returns, [executeTransaction] throws that very error at
    once: the lifecycle and the unit of work were run once, no delay was
    taken, and the manager is left without a session. *)
Theorem non_retryable_short_circuit
    (connection : Connection) (retryOptions : RetryOptions) (T : Type)
    (transactionFn : TransactionFunction T) (w : World)
    (s : ClientSession) (e : JsError) :
  0 <= maxRetries retryOptions ->
  session w = None ->
  startSession connection (history w) = Return s ->
  sessionOp connection (history w ++ [StartSession (Return s)])
    StartTransaction s = None ->
  transactionFn
    (history w ++ [StartSession (Return s);
                   SessionCall StartTransaction s None]) s = Throw e ->
  ResilientUnitOfWork.isRetryableError retryOptions e = Return false ->
  (forall h, sessionOp connection h EndSession s = None) ->
  exists w',
    ResilientUnitOfWork.executeTransaction connection retryOptions
      transactionFn w = (Throw e, w') /\
    session w' = None /\
    attempts_made (logged_since w w') = 1%nat /\
    invocations (since w w') = 1%nat /\
    delays (since w w') = [].
Proof.
  intros Hm Hs Hss Htxn Hfn Hr Hend.
  destruct (failing_unit_run connection T transactionFn w s e
              Hs Hss Htxn Hfn Hend) as (w1 & after & Hrun & Hs1 & Hh1 & Ha1).
  destruct (first_run_not_retryable connection retryOptions T transactionFn
              w w1 e Hm Hrun Hr) as (Hexec & Hmade & Hslept).
  exists (then_give_up retryOptions 0 e w1).
  split; [exact Hexec|]. split; [exact Hs1|]. split; [exact Hmade|].
  split; [|exact Hslept].
  unfold since. cbn [then_give_up history].
  rewrite Hh1, skipn_history, invocations_app, Ha1. reflexivity.
Qed.

(** * The theorems at work on concrete runs *)

Example busy_is_reached :
  UnitOfWork.begin reliable idle = (Return tt, busy).
Proof. reflexivity. Qed.

(** *** C1 *)

Lemma executeTransaction_disposes_witness :
  session idle = None /\
  startSession reliable (history idle) = Return 0%nat /\
  let (r, w') :=
    UnitOfWork.executeTransaction reliable (always_returns 42%nat) idle in
  exists pre failure,
    since idle w' = pre ++ [SessionCall EndSession 0%nat failure] /\
    calls EndSession 0%nat pre = 0%nat /\
    calls EndSession 0%nat (since idle w') = 1%nat /\
    (failure = None -> session w' = None) /\
    (forall e, failure = Some e -> session w' = Some 0%nat /\ r = Throw e).
Proof.
  split; [reflexivity | split; [reflexivity|]].
  apply (executeTransaction_disposes
           reliable nat (always_returns 42%nat) idle 0%nat); reflexivity.
Defined.

(** The unit of work returns and the commit succeeds, but [endSession]
    throws: it was called once, and the session field is not cleared. *)
Lemma endSession_failure_keeps_session :
  session idle = None /\
  let (r, w') :=
    UnitOfWork.executeTransaction (scripted endSession_throws false)
      (always_returns 42%nat) idle in
  since idle w' =
    [StartSession (Return 0%nat);
     SessionCall StartTransaction 0%nat None;
     Invoke 0%nat None;
     SessionCall CommitTransaction 0%nat None;
     SessionCall EndSession 0%nat (Some endSession_failure)] /\
  r = Throw endSession_failure /\
  session w' = Some 0%nat /\
  session w' <> None.
Proof.
  vm_compute. repeat split. discriminate.
Qed.

(** *** C3 *)

Lemma commit_failure_aborts_witness :
  session busy = Some 0%nat /\
  inTransaction (scripted commit_throws false) (history busy) 0%nat = true /\
  sessionOp (scripted commit_throws false) (history busy)
    CommitTransaction 0%nat = Some commit_failure /\
  exists w',
    UnitOfWork.commit (scripted commit_throws false) busy
      = (Throw commit_failure, w') /\
    since busy w' =
      [SessionCall CommitTransaction 0%nat (Some commit_failure);
       SessionCall AbortTransaction 0%nat None].
Proof.
  repeat (split; [reflexivity|]).
  destruct (proj1 (commit_failure_aborts (scripted commit_throws false) busy)
              0%nat commit_failure eq_refl eq_refl eq_refl)
    as (w' & Hrun & _ & Hactive & _).
  exists w'. split; [exact Hrun|].
  unfold since. rewrite Hactive by reflexivity. reflexivity.
Defined.

(** On a store where a commit that throws has still ended the transaction,
    [abort] finds no transaction and [abortTransaction] is not called. *)
Lemma settled_commit_failure_skips_abort :
  session busy = Some 0%nat /\
  inTransaction (scripted commit_throws true) (history busy) 0%nat = true /\
  sessionOp (scripted commit_throws true) (history busy)
    CommitTransaction 0%nat = Some commit_failure /\
  let (r, w') := UnitOfWork.commit (scripted commit_throws true) busy in
  r = Throw commit_failure /\
  since busy w' =
    [SessionCall CommitTransaction 0%nat (Some commit_failure)] /\
  calls AbortTransaction 0%nat (since busy w') = 0%nat /\
  calls AbortTransaction 0%nat (since busy w') <> 1%nat.
Proof.
  vm_compute. repeat split. discriminate.
Qed.

(** *** C7 *)

Lemma abort_never_masks_witness :
  let (r, w') :=
    UnitOfWork.executeTransaction (scripted abort_throws false)
      (always_throws fatal) idle in
  In (Invoke 0%nat (Some fatal)) (since idle w') /\
  In (SessionCall AbortTransaction 0%nat (Some abort_failure)) (since idle w') /\
  In (SessionCall EndSession 0%nat None) (since idle w') /\
  r = Throw fatal.
Proof.
  pose proof (proj2 (abort_never_masks (scripted abort_throws false))
                nat (always_throws fatal) idle 0%nat fatal abort_failure) as H.
  vm_compute in H |- *.
  repeat split; try apply H; auto 10.
Defined.

(** The unit of work throws, [abortTransaction] throws, and [endSession]
    throws too: the caller gets the error of [endSession]. *)
Lemma endSession_failure_masks :
  let (r, w') :=
    UnitOfWork.executeTransaction (scripted abort_and_endSession_throw false)
      (always_throws fatal) idle in
  since idle w' =
    [StartSession (Return 0%nat);
     SessionCall StartTransaction 0%nat None;
     Invoke 0%nat (Some fatal);
     SessionCall AbortTransaction 0%nat (Some abort_failure);
     SessionCall EndSession 0%nat (Some endSession_failure)] /\
  r = Throw endSession_failure /\
  r <> Throw fatal.
Proof.
  vm_compute. repeat split. discriminate.
Qed.

(** *** C8 *)

Lemma begin_while_active_witness :
  session busy = Some 0%nat /\
  UnitOfWork.begin reliable busy =
    (Throw (Error "A session is already active"),
     {| session := Some 0%nat;
        history := history busy;
        logged := logged busy ++ [Log Lwarn "A session is already active" []] |}).
Proof.
  split; [reflexivity|].
  apply (begin_while_active reliable busy 0%nat). reflexivity.
Defined.

(** *** C10 *)

Lemma executeTransaction_while_active_witness :
  session busy = Some 0%nat /\
  let (r, w') :=
    UnitOfWork.executeTransaction reliable (always_returns 42%nat) busy in
  since busy w' =
    [SessionCall AbortTransaction 0%nat None;
     SessionCall EndSession 0%nat None] /\
  r = Throw (Error "A session is already active") /\
  session w' = None.
Proof.
  split; [reflexivity|].
  pose proof (executeTransaction_while_active
                reliable nat (always_returns 42%nat) busy 0%nat eq_refl) as H.
  vm_compute in H |- *. destruct H as (H1 & H2 & H3).
  repeat split; assumption.
Defined.

(** The manager already holds a session and [endSession] throws: the
    session field is not cleared and the caller gets the error of
    [endSession], not the active-session error. *)
Lemma misuse_with_endSession_failure :
  session busy = Some 0%nat /\
  let (r, w') :=
    UnitOfWork.executeTransaction (scripted endSession_throws false)
      (always_returns 42%nat) busy in
  since busy w' =
    [SessionCall AbortTransaction 0%nat None;
     SessionCall EndSession 0%nat (Some endSession_failure)] /\
  r = Throw endSession_failure /\
  r <> Throw (Error "A session is already active") /\
  session w' = Some 0%nat /\
  session w' <> None.
Proof.
  vm_compute. repeat split; discriminate.
Qed.

(** *** C5 *)



(** *** C2 *)

Lemma retries_exhausted_witness :
  maxRetries DEFAULT_RETRY_OPTIONS = 3 /\
  session idle = None /\
  exists e w' s before after,
    ResilientUnitOfWork.executeTransaction reliable DEFAULT_RETRY_OPTIONS
      (always_throws transient) idle = (Throw e, w') /\
    session w' = None /\
    attempts_made (logged_since idle w') = 4%nat /\
    since idle w' = before ++ Invoke s (Some e) :: after /\
    invocations before = 3%nat /\
    invocations after = 0%nat /\
    delays (since idle w') =
      map (ResilientUnitOfWork.calculateBackoffDelay DEFAULT_RETRY_OPTIONS)
          [0; 1; 2].
Proof.
  split; [reflexivity | split; [reflexivity|]].
  apply (retries_exhausted reliable DEFAULT_RETRY_OPTIONS nat
           (always_throws transient) idle).
  - reflexivity.
  - reflexivity.
  - intros h. eexists. reflexivity.
  - intros h s. reflexivity.
  - intros h s. reflexivity.
  - intros h s. exists transient. split; [reflexivity|].
    vm_compute. reflexivity.
Defined.

(** The unit of work throws a retryable error each time it is run, but the
    [endSession] of the first attempt throws an error that is not: one
    attempt is made and that error is thrown. *)
Lemma endSession_failure_stops_retries :
  maxRetries DEFAULT_RETRY_OPTIONS = 3 /\
  (forall h s, always_throws transient h s = Throw transient) /\
  ResilientUnitOfWork.isRetryableError DEFAULT_RETRY_OPTIONS transient
    = Return true /\
  let (r, w') :=
    ResilientUnitOfWork.executeTransaction (scripted endSession_throws false)
      DEFAULT_RETRY_OPTIONS (always_throws transient) idle in
  r = Throw endSession_failure /\
  attempts_made (logged_since idle w') = 1%nat /\
  attempts_made (logged_since idle w') <> 4%nat /\
  since idle w' =
    [StartSession (Return 0%nat); SessionCall StartTransaction 0%nat None;
     Invoke 0%nat (Some transient); SessionCall AbortTransaction 0%nat None;
     SessionCall EndSession 0%nat (Some endSession_failure)].
Proof.
  split; [reflexivity|]. split; [intros h s; reflexivity|].
  vm_compute. repeat split. discriminate.
Qed.

(** *** C6 *)

Lemma non_retryable_short_circuit_witness :
  0 <= maxRetries DEFAULT_RETRY_OPTIONS /\
  session idle = None /\
  ResilientUnitOfWork.isRetryableError DEFAULT_RETRY_OPTIONS fatal
    = Return false /\
  exists w',
    ResilientUnitOfWork.executeTransaction reliable DEFAULT_RETRY_OPTIONS
      (always_throws fatal) idle = (Throw fatal, w') /\
    session w' = None /\
    attempts_made (logged_since idle w') = 1%nat /\
    invocations (since idle w') = 1%nat /\
    delays (since idle w') = [].
Proof.
  split; [discriminate|]. split; [reflexivity|].
  split; [vm_compute; reflexivity|].
  apply (non_retryable_short_circuit reliable DEFAULT_RETRY_OPTIONS nat
           (always_throws fatal) idle 0%nat fatal).
  - discriminate.
  - reflexivity.
  - reflexivity.
  - reflexivity.
  - reflexivity.
  - vm_compute. reflexivity.
  - intros h. reflexivity.
Defined.

(** The unit of work throws an error that is not retryable, but the
    [endSession] of each attempt throws one that is: four attempts are
    made, with the three delays, and the error of [endSession] is thrown
    (the unit of work is run once: the session of the first attempt is
    still set, so [begin] throws in the later ones).
    And a unit of work that throws [undefined]: classifying it throws a
    [TypeError], which is what the caller gets. *)
Lemma endSession_failure_starts_retries :
  (0 <= maxRetries DEFAULT_RETRY_OPTIONS /\
   (forall h s, always_throws fatal h s = Throw fatal) /\
   ResilientUnitOfWork.isRetryableError DEFAULT_RETRY_OPTIONS fatal
     = Return false /\
   let (r, w') :=
     ResilientUnitOfWork.executeTransaction
       (scripted endSession_throws_transient false)
       DEFAULT_RETRY_OPTIONS (always_throws fatal) idle in
   r = Throw transient /\
   r <> Throw fatal /\
   attempts_made (logged_since idle w') = 4%nat /\
   invocations (since idle w') = 1%nat /\
   delays (since idle w') = map Finite [100; 200; 400]) /\
  ((forall h s, always_throws undefined h s = Throw undefined) /\
   let (r, w') :=
     ResilientUnitOfWork.executeTransaction reliable DEFAULT_RETRY_OPTIONS
       (always_throws undefined) idle in
   r = Throw (TypeError "undefined") /\
   r <> Throw undefined /\
   attempts_made (logged_since idle w') = 1%nat).
Proof.
  split.
  - split; [discriminate|]. split; [intros h s; reflexivity|].
    vm_compute. repeat split. discriminate.
  - split; [intros h s; reflexivity|].
    vm_compute. repeat split. discriminate.
Qed.

(** * Further properties of [UnitOfWork] *)

(** ** [begin], [getSession] and [execute] *)

(** X1. [begin] on a manager without a session asks the store for one.  If
    [startSession] throws, [begin] throws that error and the manager still
    has no session.  If it returns a session, the manager holds it from then
    on, whether [startTransaction] returns or throws; in the second case
    [begin] throws the error of [startTransaction], and a further [begin]
    fails with the active-session error without contacting the store. *)
Theorem begin_acquires (connection : Connection) (w : World) :
  session w = None ->
  exists w',
    match startSession connection (history w) with
    | Throw e =>
        UnitOfWork.begin connection w = (Throw e, w') /\
        session w' = None /\
        history w' = history w ++ [StartSession (Throw e)]
    | Return s =>
        let h1 := history w ++ [StartSession (Return s)] in
        let failure := sessionOp connection h1 StartTransaction s in
        UnitOfWork.begin connection w =
          (match failure with None => Return tt | Some e => Throw e end, w') /\
        session w' = Some s /\
        history w' = h1 ++ [SessionCall StartTransaction s failure] /\
        fst (UnitOfWork.begin connection w') =
          Throw (Error "A session is already active") /\
        history (snd (UnitOfWork.begin connection w')) = history w'
    end.
Proof.
  destruct w as [o h l]; cbn [session history logged]. intros ->.
  run_methods; eexists; (split; [reflexivity|]); cbn;
    rewrite <- ?app_assoc; repeat split; reflexivity.
Qed.

(** X2. After a [begin] that returned, [getSession] returns the session
    that [startSession] handed out, and changes nothing. *)
Theorem begin_then_getSession (connection : Connection) (w w' : World) :
  UnitOfWork.begin connection w = (Return tt, w') ->
  exists s,
    startSession connection (history w) = Return s /\
    UnitOfWork.getSession w' = (Return s, w').
Proof.
  destruct w as [o h l]. unfold UnitOfWork.getSession.
  destruct o as [s0|]; run_methods; intros H; inversion H; subst;
    eexists; split; reflexivity.
Qed.

(** X3. After a [dispose] that returned, the manager has no session:
    [getSession] throws the no-active-transaction error, and so does
    [execute], which does not run the unit of work nor contact the store. *)
Theorem no_session_guards
    (connection : Connection) (T : Type) (transactionFn : TransactionFunction T)
    (w w' : World) :
  UnitOfWork.dispose connection w = (Return tt, w') ->
  session w' = None /\
  UnitOfWork.getSession w' =
    (Throw (Error "No active transaction. Call begin() first."), w') /\
  exists w'',
    UnitOfWork.execute transactionFn w' =
      (Throw (Error "No active transaction. Call begin() first."), w'') /\
    history w'' = history w' /\
    session w'' = None.
Proof.
  destruct w as [o h l]. unfold UnitOfWork.getSession, UnitOfWork.execute.
  destruct o as [s0|]; run_methods; intros H; inversion H; subst; cbn;
    (split; [reflexivity|]); (split; [reflexivity|]);
    eexists; repeat split; reflexivity.
Qed.

(** X4. With a session, [execute] runs the unit of work once on that
    session and completes as the unit of work did: the same result, or the
    same error thrown again.  It calls no method of the session and keeps
    the session field. *)
Theorem execute_propagates
    (connection : Connection) (T : Type) (transactionFn : TransactionFunction T)
    (w : World) (s : ClientSession) :
  session w = Some s ->
  exists w',
    UnitOfWork.execute transactionFn w = (transactionFn (history w) s, w') /\
    session w' = Some s /\
    history w' =
      history w ++
      [Invoke s (UnitOfWork.failure_of (transactionFn (history w) s))].
Proof.
  destruct w as [o h l]; cbn [session history logged]. intros ->.
  run_methods. destruct (transactionFn h s);
    eexists; repeat split; reflexivity.
Qed.

(** ** The composite [executeTransaction], path by path *)

(** X6. [executeTransaction] returns a value only from a manager that held
    no session, when the unit of work returned that value and no call
    threw; the session has then been ended and the session field is empty.
    [commitTransaction] was called exactly when the session reported a
    transaction after the unit of work: when it reported none, the value is
    returned without any commit. *)
Theorem executeTransaction_returns
    (connection : Connection) (T : Type) (transactionFn : TransactionFunction T)
    (w w' : World) (v : T) :
  UnitOfWork.executeTransaction connection transactionFn w = (Return v, w') ->
  session w = None /\
  session w' = None /\
  exists s,
    let h2 := history w ++ [StartSession (Return s);
                            SessionCall StartTransaction s None] in
    let h3 := h2 ++ [Invoke s None] in
    transactionFn h2 s = Return v /\
    since w w' =
      [StartSession (Return s); SessionCall StartTransaction s None;
       Invoke s None] ++
      (if inTransaction connection h3 s
       then [SessionCall CommitTransaction s None] else []) ++
      [SessionCall EndSession s None].
Proof.
  destruct w as [o h l]; cbn [session history logged].
  destruct o as [s0|]; run_methods;
    try (match goal with
         | |- context [transactionFn ?h ?x] =>
             destruct (transactionFn h x) eqn:Hfn
         end);
    repeat (cbn [session history logged fst snd negb UnitOfWork.failure_of];
            try next_answer);
    intros H; inversion H; subst; clear H;
    (split; [reflexivity|]); (split; [reflexivity|]);
    eexists; cbn zeta; rewrite <- ?app_assoc in *; cbn [app] in *;
    (split; [eassumption|]);
    repeat match goal with
           | H : inTransaction _ _ _ = _ |- _ => rewrite H
           end;
    new_events; reflexivity.
Qed.

(** X7. When [startSession] throws, [executeTransaction] throws that error;
    no session is held, the unit of work is not run, and nothing is
    aborted or ended. *)
Theorem executeTransaction_without_session
    (connection : Connection) (T : Type) (transactionFn : TransactionFunction T)
    (w : World) (e : JsError) :
  session w = None ->
  startSession connection (history w) = Throw e ->
  exists w',
    UnitOfWork.executeTransaction connection transactionFn w = (Throw e, w') /\
    session w' = None /\
    since w w' = [StartSession (Throw e)].
Proof.
  destruct w as [o h l]; cbn [session history logged]. intros -> Hss.
  run_methods. eexists. split; [reflexivity|]. new_events.
  split; reflexivity.
Qed.

(** Counts the calls of a run, whatever the sessions compared are. *)
Ltac count_calls :=
  unfold calls, invocations; cbn [filter is_call List.length];
  repeat match goal with
         | |- context [Nat.eqb ?a ?b] => destruct (Nat.eqb a b)
         end;
  cbn [filter is_call List.length].

(** Runs [executeTransaction] from any state along each of its paths. *)
Ltac each_path transactionFn :=
  run_methods;
  try (match goal with
       | |- context [transactionFn ?h ?x] =>
           let E := fresh "Hfn" in destruct (transactionFn h x) eqn:E
       end);
  repeat (cbn [session history logged fst snd negb UnitOfWork.failure_of];
          try next_answer);
  new_events.

(** X8. What one run of [executeTransaction] may cost the store, at most:
    the unit of work is run once, and on any session [startTransaction],
    [commitTransaction] and [endSession] are called once and
    [abortTransaction] twice. *)
Theorem executeTransaction_call_budget
    (connection : Connection) (T : Type) (transactionFn : TransactionFunction T)
    (w : World) (s : ClientSession) :
  let w' := snd (UnitOfWork.executeTransaction connection transactionFn w) in
  (invocations (since w w') <= 1)%nat /\
  (calls StartTransaction s (since w w') <= 1)%nat /\
  (calls CommitTransaction s (since w w') <= 1)%nat /\
  (calls AbortTransaction s (since w w') <= 2)%nat /\
  (calls EndSession s (since w w') <= 1)%nat.
Proof.
  destruct w as [o h l]; cbn [session history logged].
  destruct o as [s0|]; each_path transactionFn;
    repeat split; count_calls; lia.
Qed.

(** X9. A unit of work that threw is never committed: once the unit of
    work has thrown, the run calls [commitTransaction] on no session.  And
    [abortTransaction] is called a second time only after a
    [commitTransaction] that threw. *)
Theorem failed_unit_never_committed
    (connection : Connection) (T : Type) (transactionFn : TransactionFunction T)
    (w : World) (s : ClientSession) :
  let w' := snd (UnitOfWork.executeTransaction connection transactionFn w) in
  ((exists s' e, In (Invoke s' (Some e)) (since w w')) ->
   calls CommitTransaction s (since w w') = 0%nat) /\
  (calls AbortTransaction s (since w w') = 2%nat ->
   exists e, In (SessionCall CommitTransaction s (Some e)) (since w w')).
Proof.
  destruct w as [o h l]; cbn [session history logged].
  destruct o as [s0|]; each_path transactionFn;
    (split;
     [ intros (sx & ex & Hthrew); cbn [In] in Hthrew;
       repeat match goal with
              | H : _ \/ _ |- _ => destruct H
              | H : False |- _ => destruct H
              | H : _ = _ |- _ => discriminate H
              end;
       count_calls; reflexivity
     | unfold calls; cbn [filter is_call List.length];
       repeat match goal with
              | |- context [Nat.eqb ?a ?b] =>
                  let E := fresh "Heq" in destruct (Nat.eqb a b) eqn:E
              end;
       cbn [filter is_call List.length]; intros Hc; try discriminate Hc;
       repeat match goal with
              | H : Nat.eqb _ _ = true |- _ => apply Nat.eqb_eq in H; subst
              end;
       eexists; cbn [In]; eauto 10 ]).
Qed.

(** X10. Driving the lifecycle by hand and [executeTransaction] agree when
    all goes well: whenever [begin], [execute], [commit] and [dispose]
    called in a row return a value, [executeTransaction] from the same state
    returns that value after the same conversation with the store, and
    leaves the same session field. *)
Theorem by_hand_agrees
    (connection : Connection) (T : Type) (transactionFn : TransactionFunction T)
    (w w1 : World) (v : T) :
  by_hand connection transactionFn w = (Return v, w1) ->
  exists w2,
    UnitOfWork.executeTransaction connection transactionFn w = (Return v, w2) /\
    history w2 = history w1 /\
    session w2 = session w1.
Proof.
  destruct w as [o h l]. unfold by_hand.
  destruct o as [s0|]; run_methods;
    try (match goal with
         | |- context [transactionFn ?h ?x] =>
             destruct (transactionFn h x) eqn:Hfn
         end);
    repeat (cbn [session history logged fst snd negb UnitOfWork.failure_of];
            try next_answer);
    intros H; inversion H; subst; clear H;
    eexists; repeat split; reflexivity.
Qed.

(** * Further properties of [ResilientUnitOfWork] *)

(** ** The loop as a whole *)

Lemma announce_effects (retryOptions : RetryOptions) (attempt : Z) (w : World) :
  exists la,
    logged (announce retryOptions attempt w) = logged w ++ la /\
    attempts_made la = 0%nat /\
    history (announce retryOptions attempt w) = history w.
Proof.
  unfold announce. destruct (0 <? attempt); cbn [logged history].
  - eexists. repeat split.
  - exists []. now rewrite app_nil_r.
Qed.

(** The delay taken after attempt [attempt + i], for [i] below [n]. *)
Lemma backoff_schedule_shift (retryOptions : RetryOptions) (attempt : Z) (n : nat) :
  (1 <= n)%nat ->
  ResilientUnitOfWork.calculateBackoffDelay retryOptions attempt ::
  map (fun i => ResilientUnitOfWork.calculateBackoffDelay retryOptions
                  (attempt + 1 + Z.of_nat i))
      (seq 0 (n - 1)) =
  map (fun i => ResilientUnitOfWork.calculateBackoffDelay retryOptions
                  (attempt + Z.of_nat i))
      (seq 0 (1 + n - 1)).
Proof.
  intros Hn. replace (1 + n - 1)%nat with (S (n - 1)) by lia.
  cbn [seq map]. rewrite Z.add_0_r. f_equal.
  rewrite <- seq_shift, map_map. apply map_ext. intros i.
  f_equal. lia.
Qed.

(** What the loop adds to history and log when [remaining] iterations are
    left from [attempt] on: between one and [remaining] runs of the
    lifecycle, and between two runs the delay of the schedule. *)
Lemma loop_effects
    (connection : Connection) (retryOptions : RetryOptions) (T : Type)
    (transactionFn : TransactionFunction T) (remaining : nat) :
  forall (attempt : Z) (lastError : option JsError) (w : World),
    Z.of_nat remaining = maxRetries retryOptions + 1 - attempt ->
    (1 <= remaining)%nat ->
    let w' :=
      snd (ResilientUnitOfWork.attempts connection retryOptions transactionFn
             remaining attempt lastError w) in
    exists evs l,
      history w' = history w ++ evs /\
      logged w' = logged w ++ l /\
      (1 <= attempts_made l <= remaining)%nat /\
      delays evs =
        map (fun i => ResilientUnitOfWork.calculateBackoffDelay retryOptions
                        (attempt + Z.of_nat i))
            (seq 0 (attempts_made l - 1)).
Proof.
  induction remaining as [|k IH]; intros attempt lastError w Hrem Hpos;
    [lia|].
  cbv zeta. rewrite loop_step.
  destruct (announce_effects retryOptions attempt w) as (la & Hla & Hla0 & Hha).
  destruct (UnitOfWork.executeTransaction connection transactionFn
              (announce retryOptions attempt w)) as [[v|e] w1] eqn:Hrun;
    apply lifecycle_effects in Hrun as (evs1 & l1 & Hh1 & Hd1 & Hl1 & Ha1);
    rewrite Hha in Hh1; rewrite Hla, <- app_assoc in Hl1.
  - cbn [snd]. exists evs1, (la ++ l1).
    rewrite attempts_made_app, Hla0, Ha1. cbn. repeat split; auto.
  - assert (Hstop : exists evs l,
              history (then_give_up retryOptions attempt e w1)
                = history w ++ evs /\
              logged (then_give_up retryOptions attempt e w1)
                = logged w ++ l /\
              (1 <= attempts_made l <= S k)%nat /\
              delays evs =
                map (fun i =>
                       ResilientUnitOfWork.calculateBackoffDelay retryOptions
                         (attempt + Z.of_nat i))
                    (seq 0 (attempts_made l - 1))).
    { cbn [then_give_up history logged].
      eexists evs1, (la ++ l1 ++ [_]).
      rewrite Hl1, <- !app_assoc, !attempts_made_app, Hla0, Ha1.
      cbn. repeat split; auto. }
    destruct (attempt =? maxRetries retryOptions) eqn:Hc;
      [exact Hstop|].
    destruct (ResilientUnitOfWork.isRetryableError retryOptions e)
      as [[|]|typeError]; [| exact Hstop |].
    + apply Z.eqb_neq in Hc.
      specialize (IH (attempt + 1) (Some e)
                    (then_backoff retryOptions attempt e w1)).
      destruct IH as (evs2 & l2 & Hh2 & Hl2 & Ha2 & Hd2); [lia | lia |].
      cbn [snd]. eexists (evs1 ++ [_] ++ evs2), (la ++ l1 ++ [_] ++ l2).
      rewrite Hh2, Hl2. unfold then_backoff. cbn [history logged].
      rewrite Hh1, Hl1, <- !app_assoc.
      split; [reflexivity|]. split; [reflexivity|].
      rewrite !attempts_made_app, Hla0, Ha1, !delays_app, Hd1, Hd2.
      change (attempts_made [_]) with 0%nat.
      split; [lia|].
      cbn [delays flat_map app Nat.add].
      change (S (attempts_made l2) - 1)%nat with (1 + attempts_made l2 - 1)%nat.
      apply backoff_schedule_shift. lia.
    + cbn [snd]. exists evs1, (la ++ l1).
      rewrite attempts_made_app, Hla0, Ha1. cbn. repeat split; auto.
Qed.

(** A delay of the schedule is not a number, or it is within the cap. *)
Lemma backoff_within_cap (retryOptions : RetryOptions) (n : Z) :
  ResilientUnitOfWork.calculateBackoffDelay retryOptions n = NaN \/
  at_most (maxDelayMs retryOptions)
    (ResilientUnitOfWork.calculateBackoffDelay retryOptions n).
Proof.
  unfold ResilientUnitOfWork.calculateBackoffDelay.
  destruct (times _ _) as [p| | |]; cbn [Math_min at_most].
  - right. lia.
  - right. lia.
  - right. exact I.
  - left. reflexivity.
Qed.

(** With a positive initial delay and a factor that is not negative, every
    delay of the schedule is a finite number. *)
Lemma backoff_finite (retryOptions : RetryOptions) (n : Z) :
  0 < initialDelayMs retryOptions ->
  0 <= backoffFactor retryOptions ->
  exists d, ResilientUnitOfWork.calculateBackoffDelay retryOptions n = Finite d.
Proof.
  intros Hi Hf. unfold ResilientUnitOfWork.calculateBackoffDelay, Math_pow.
  assert (Hp : 0 <= backoffFactor retryOptions ^ n)
    by (apply Z.pow_nonneg; exact Hf).
  destruct (nearest_double_above 0 _ ltac:(split; [lia | reflexivity]) Hp)
    as [-> | (p & -> & Hp')]; cbn [times].
  - replace (initialDelayMs retryOptions =? 0) with false
      by (symmetry; apply Z.eqb_neq; lia).
    replace (0 <? initialDelayMs retryOptions) with true
      by (symmetry; apply Z.ltb_lt; lia).
    cbn [Math_min]. eauto.
  - assert (Hq : 0 <= initialDelayMs retryOptions * p) by nia.
    destruct (nearest_double_above 0 _ ltac:(split; [lia | reflexivity]) Hq)
      as [-> | (q & -> & Hq')]; cbn [Math_min]; eauto.
Qed.

Lemma total_bounded (f : nat -> Number) (bound : Z) (l : list nat) :
  (forall i, f i = NaN \/ at_most bound (f i)) ->
  forall t,
    fold_right
      (fun d total =>
         match d, total with
         | Finite z, Some t => Some (z + t)
         | _, _ => None
         end)
      (Some 0) (map f l) = Some t ->
    t <= Z.of_nat (List.length l) * bound.
Proof.
  intros Hf. induction l as [|i l IH]; intros t.
  - cbn. intros [= <-]. lia.
  - cbn [map fold_right List.length].
    destruct (Hf i) as [Hi | Hi]; [rewrite Hi; discriminate|].
    destruct (f i) as [z| | |]; try discriminate.
    destruct (fold_right _ _ _) as [t'|]; [|discriminate].
    intros [= <-]. specialize (IH t' eq_refl). cbn [at_most] in Hi. nia.
Qed.

Lemma total_defined (f : nat -> Number) (l : list nat) :
  (forall i, exists d, f i = Finite d) ->
  exists t,
    fold_right
      (fun d total =>
         match d, total with
         | Finite z, Some t => Some (z + t)
         | _, _ => None
         end)
      (Some 0) (map f l) = Some t.
Proof.
  intros Hf. induction l as [|i l [t IH]]; [now exists 0|].
  cbn [map fold_right]. destruct (Hf i) as [d ->]. rewrite IH. eauto.
Qed.

(** X11. The retry bound, for every store and unit of work: with
    [maxRetries >= 0], [executeTransaction] runs the lifecycle at least once
    and at most [maxRetries + 1] times, and sleeps between two runs only:
    after attempt [i] it waits [calculateBackoffDelay(i)], so [n] attempts
    take the first [n - 1] delays of the schedule, in order. *)
Theorem attempts_bounded
    (connection : Connection) (retryOptions : RetryOptions) (T : Type)
    (transactionFn : TransactionFunction T) (w : World) :
  0 <= maxRetries retryOptions ->
  let w' :=
    snd (ResilientUnitOfWork.executeTransaction connection retryOptions
           transactionFn w) in
  let n := attempts_made (logged_since w w') in
  (1 <= n)%nat /\
  Z.of_nat n <= maxRetries retryOptions + 1 /\
  delays (since w w') =
    map (fun i => ResilientUnitOfWork.calculateBackoffDelay retryOptions
                    (Z.of_nat i))
        (seq 0 (n - 1)).
Proof.
  intros Hm. unfold ResilientUnitOfWork.executeTransaction.
  destruct (loop_effects connection retryOptions T transactionFn
              (Z.to_nat (maxRetries retryOptions + 1)) 0 None w)
    as (evs & l & Hh & Hl & Ha & Hd); [lia | lia |].
  cbv zeta. unfold since, logged_since.
  rewrite Hh, Hl, skipn_history, skipn_logged.
  split; [lia|]. split; [lia|]. exact Hd.
Qed.

(** X12. The time spent waiting is bounded by the options alone: with
    [maxRetries >= 0] and [maxDelayMs >= 0], the delays of one call of
    [executeTransaction], when they add up to a number, add up to at most
    [maxRetries * maxDelayMs] milliseconds; and they do add up to one when
    the initial delay is positive and the factor is not negative. *)
Theorem total_delay_bounded
    (connection : Connection) (retryOptions : RetryOptions) (T : Type)
    (transactionFn : TransactionFunction T) (w : World) :
  0 <= maxRetries retryOptions ->
  0 <= maxDelayMs retryOptions ->
  let w' :=
    snd (ResilientUnitOfWork.executeTransaction connection retryOptions
           transactionFn w) in
  (forall t, total_delay (since w w') = Some t ->
     t <= maxRetries retryOptions * maxDelayMs retryOptions) /\
  (0 < initialDelayMs retryOptions -> 0 <= backoffFactor retryOptions ->
   exists t, total_delay (since w w') = Some t /\
             t <= maxRetries retryOptions * maxDelayMs retryOptions).
Proof.
  intros Hm Hd0. unfold ResilientUnitOfWork.executeTransaction.
  destruct (loop_effects connection retryOptions T transactionFn
              (Z.to_nat (maxRetries retryOptions + 1)) 0 None w)
    as (evs & l & Hh & Hl & Ha & Hd); [lia | lia |].
  cbv zeta. unfold since, total_delay.
  rewrite Hh, skipn_history, Hd.
  assert (Hbound : forall t,
            fold_right
              (fun d total =>
                 match d, total with
                 | Finite z, Some t => Some (z + t)
                 | _, _ => None
                 end)
              (Some 0)
              (map (fun i =>
                      ResilientUnitOfWork.calculateBackoffDelay retryOptions
                        (0 + Z.of_nat i))
                   (seq 0 (attempts_made l - 1))) = Some t ->
            t <= maxRetries retryOptions * maxDelayMs retryOptions).
  { intros t Ht.
    apply total_bounded with (bound := maxDelayMs retryOptions) in Ht;
      [|intros i; apply backoff_within_cap].
    rewrite length_seq in Ht. nia. }
  split; [exact Hbound|].
  intros Hi Hf.
  destruct (total_defined
              (fun i => ResilientUnitOfWork.calculateBackoffDelay retryOptions
                          (0 + Z.of_nat i))
              (seq 0 (attempts_made l - 1))) as [t Ht];
    [intros i; now apply backoff_finite|].
  exists t. split; [exact Ht | exact (Hbound t Ht)].
Qed.

(** X13. A lifecycle that succeeds at once goes through the executor
    untouched: with [maxRetries >= 0], when the first run of the lifecycle
    returns, [executeTransaction] returns the same value in the same state,
    with no delay and no entry of its own in the log. *)
Theorem success_is_transparent
    (connection : Connection) (retryOptions : RetryOptions) (T : Type)
    (transactionFn : TransactionFunction T) (w w1 : World) (v : T) :
  0 <= maxRetries retryOptions ->
  UnitOfWork.executeTransaction connection transactionFn w = (Return v, w1) ->
  ResilientUnitOfWork.executeTransaction connection retryOptions transactionFn w
    = (Return v, w1).
Proof.
  intros Hm H0. unfold ResilientUnitOfWork.executeTransaction.
  destruct (Z.to_nat (maxRetries retryOptions + 1)) as [|k] eqn:Hk; [lia|].
  rewrite loop_step. change (announce retryOptions 0 w) with w.
  now rewrite H0.
Qed.

(** X14. Success after two retries: with [maxRetries >= 2], when the
    lifecycle fails at attempts 0 and 1 with retryable errors and returns
    at attempt 2, [executeTransaction] returns that value in the state the
    third run left; three attempts were made, after the delays of attempts
    0 and 1, and none follows. *)
Theorem succeeds_on_third_attempt
    (connection : Connection) (retryOptions : RetryOptions) (T : Type)
    (transactionFn : TransactionFunction T)
    (w0 w1 w2 w3 : World) (e0 e1 : JsError) (v : T) :
  2 <= maxRetries retryOptions ->
  UnitOfWork.executeTransaction connection transactionFn w0 = (Throw e0, w1) ->
  ResilientUnitOfWork.isRetryableError retryOptions e0 = Return true ->
  UnitOfWork.executeTransaction connection transactionFn
    (then_retry retryOptions 0 e0 w1) = (Throw e1, w2) ->
  ResilientUnitOfWork.isRetryableError retryOptions e1 = Return true ->
  UnitOfWork.executeTransaction connection transactionFn
    (then_retry retryOptions 1 e1 w2) = (Return v, w3) ->
  ResilientUnitOfWork.executeTransaction connection retryOptions transactionFn w0
    = (Return v, w3) /\
  attempts_made (logged_since w0 w3) = 3%nat /\
  delays (since w0 w3) =
    map (ResilientUnitOfWork.calculateBackoffDelay retryOptions) [0; 1].
Proof.
  intros Hm H0 R0 H1 R1 H2. split.
  - unfold ResilientUnitOfWork.executeTransaction.
    destruct (Z.to_nat (maxRetries retryOptions + 1))
      as [|[|[|k]]] eqn:Hk; try lia.
    rewrite loop_step. change (announce retryOptions 0 w0) with w0.
    rewrite H0, R0.
    replace (0 =? maxRetries retryOptions) with false
      by (symmetry; apply Z.eqb_neq; lia).
    rewrite loop_step.
    starts_at (then_retry retryOptions 0 e0 w1). rewrite H1, R1.
    replace (0 + 1 =? maxRetries retryOptions) with false
      by (symmetry; apply Z.eqb_neq; lia).
    rewrite loop_step.
    starts_at (then_retry retryOptions 1 e1 w2). now rewrite H2.
  - apply lifecycle_effects in H0 as (v0 & l0 & Hh0 & Hd0 & Hl0 & Ha0).
    apply lifecycle_effects in H1 as (v1 & l1 & Hh1 & Hd1 & Hl1 & Ha1).
    apply lifecycle_effects in H2 as (v2 & l2 & Hh2 & Hd2 & Hl2 & Ha2).
    unfold then_retry, announce, then_backoff in *.
    cbn [Z.add Z.ltb Z.compare Pos.add Pos.succ session history logged] in *.
    unfold since, logged_since.
    rewrite Hh2, Hh1, Hh0, Hl2, Hl1, Hl0.
    rewrite <- !app_assoc, skipn_history, skipn_logged.
    rewrite !attempts_made_app, !delays_app, Ha0, Ha1, Ha2.
    rewrite Hd0, Hd1, Hd2. split; reflexivity.
Qed.

(** X15. With [maxRetries = 0] nothing is retried: when the lifecycle
    fails, be the error retryable or not, [executeTransaction] throws it
    after that single attempt, without sleeping. *)
Theorem zero_retries_never_retries
    (connection : Connection) (retryOptions : RetryOptions) (T : Type)
    (transactionFn : TransactionFunction T) (w w1 : World) (e : JsError) :
  maxRetries retryOptions = 0 ->
  UnitOfWork.executeTransaction connection transactionFn w = (Throw e, w1) ->
  ResilientUnitOfWork.executeTransaction connection retryOptions transactionFn w
    = (Throw e, then_give_up retryOptions 0 e w1) /\
  history (then_give_up retryOptions 0 e w1) = history w1.
Proof.
  intros Hm H0. split; [|reflexivity].
  unfold ResilientUnitOfWork.executeTransaction. rewrite Hm.
  change (Z.to_nat (0 + 1)) with 1%nat.
  rewrite loop_step. change (announce retryOptions 0 w) with w.
  now rewrite H0, Hm.
Qed.

(** ** Backoff and classification *)



(** X19. The active-session error is not retried under the default list of
    identifiers.  When [executeTransaction] is called, with
    [maxRetries >= 0], on a manager that already holds a session whose
    [endSession] does not throw, the lifecycle is run once, that session is
    ended, the session field is emptied, and the active-session error is
    thrown without any delay. *)
Theorem usage_error_not_retried
    (connection : Connection) (retryOptions : RetryOptions) (T : Type)
    (transactionFn : TransactionFunction T) (w : World) (s : ClientSession) :
  retryableErrors retryOptions = retryableErrors DEFAULT_RETRY_OPTIONS ->
  0 <= maxRetries retryOptions ->
  session w = Some s ->
  (forall h, sessionOp connection h EndSession s = None) ->
  let (r, w') :=
    ResilientUnitOfWork.executeTransaction connection retryOptions
      transactionFn w in
  r = Throw (Error "A session is already active") /\
  session w' = None /\
  calls EndSession s (since w w') = 1%nat /\
  invocations (since w w') = 0%nat /\
  delays (since w w') = [].
Proof.
  intros Hl Hm Hs Hend.
  unfold ResilientUnitOfWork.executeTransaction.
  destruct (Z.to_nat (maxRetries retryOptions + 1)) as [|k] eqn:Hk; [lia|].
  rewrite loop_step. change (announce retryOptions 0 w) with w.
  assert (Hnot : ResilientUnitOfWork.isRetryableError retryOptions
                   (Error "A session is already active") = Return false).
  { unfold ResilientUnitOfWork.isRetryableError. now rewrite Hl. }
  destruct w as [o h l]; cbn [session] in Hs; subst o.
  assert (Hrun : exists w1,
            UnitOfWork.executeTransaction connection transactionFn
              {| session := Some s; history := h; logged := l |} =
              (Throw (Error "A session is already active"), w1) /\
            session w1 = None /\
            calls EndSession s (skipn (List.length h) (history w1)) = 1%nat /\
            invocations (skipn (List.length h) (history w1)) = 0%nat /\
            delays (skipn (List.length h) (history w1)) = []).
  { run_methods; try (rewrite Hend in *; discriminate);
      eexists; (split; [reflexivity|]); new_events;
      (split; [reflexivity|]); unfold calls, invocations, delays; cbn;
      rewrite Nat.eqb_refl; repeat split. }
  destruct Hrun as (w1 & -> & Hs1 & Hc1 & Hi1 & Hd1).
  rewrite Hnot. destruct (0 =? maxRetries retryOptions);
    unfold since, then_give_up;
    cbn [session history logged]; repeat split; assumption.
Qed.

(** ** Where thrown errors come from *)

(** X20. [executeTransaction] makes up one error only, the active-session
    error of a manager that already held a session.  Any other error it
    throws was thrown, in this run, by [startSession], by the unit of work,
    or by a method of the session other than [abortTransaction]. *)
Theorem executeTransaction_error_provenance
    (connection : Connection) (T : Type) (transactionFn : TransactionFunction T)
    (w w' : World) (e : JsError) :
  UnitOfWork.executeTransaction connection transactionFn w = (Throw e, w') ->
  (session w <> None /\ e = Error "A session is already active") \/
  In (StartSession (Throw e)) (since w w') \/
  (exists s, In (Invoke s (Some e)) (since w w')) \/
  (exists s op,
     In (SessionCall op s (Some e)) (since w w') /\ op <> AbortTransaction).
Proof.
  destruct w as [o h l]; cbn [session history logged].
  destruct o as [s0|]; each_path transactionFn;
    intros H; inversion H; subst; clear H; new_events;
    solve [ left; split; [discriminate | reflexivity]
          | right; left; cbn [In]; auto 10
          | right; right; left; eexists; cbn [In]; eauto 10
          | right; right; right; eexists; eexists;
            split; [cbn [In]; eauto 10 | discriminate] ].
Qed.




Lemma loop_return_provenance
    (connection : Connection) (retryOptions : RetryOptions) (T : Type)
    (transactionFn : TransactionFunction T) (remaining : nat) :
  forall (attempt : Z) (lastError : option JsError) (w w' : World) (v : T),
    ResilientUnitOfWork.attempts connection retryOptions transactionFn
      remaining attempt lastError w = (Return v, w') ->
    exists wa,
      UnitOfWork.executeTransaction connection transactionFn wa
        = (Return v, w').
Proof.
  induction remaining as [|k IH]; intros attempt lastError w w' v;
    [discriminate|].
  rewrite loop_step.
  destruct (UnitOfWork.executeTransaction connection transactionFn
              (announce retryOptions attempt w)) as [[v1|e1] w1] eqn:Hrun.
  - intros H. injection H as <- <-. eauto.
  - destruct (attempt =? maxRetries retryOptions); [discriminate|].
    destruct (ResilientUnitOfWork.isRetryableError retryOptions e1)
      as [[|]|typeError]; [apply IH | discriminate | discriminate].
Qed.

(** X22. Whatever [executeTransaction] returns was returned by a run of the
    lifecycle, and that run was the last thing to happen: the executor
    hands back its value and its state as they are. *)
Theorem executor_return_provenance
    (connection : Connection) (retryOptions : RetryOptions) (T : Type)
    (transactionFn : TransactionFunction T) (w w' : World) (v : T) :
  ResilientUnitOfWork.executeTransaction connection retryOptions transactionFn w
    = (Return v, w') ->
  exists wa,
    UnitOfWork.executeTransaction connection transactionFn wa = (Return v, w').
Proof.
  unfold ResilientUnitOfWork.executeTransaction. apply loop_return_provenance.
Qed.

(** * The further properties at work on concrete runs *)

Lemma begin_acquires_witness :
  session idle = None /\
  exists w',
    UnitOfWork.begin (scripted startTransaction_throws false) idle
      = (Throw fatal, w') /\
    session w' = Some 0%nat /\
    fst (UnitOfWork.begin (scripted startTransaction_throws false) w') =
      Throw (Error "A session is already active").
Proof.
  split; [reflexivity|].
  destruct (begin_acquires (scripted startTransaction_throws false) idle
              eq_refl) as (w' & H).
  cbn in H. destruct H as (Hrun & Hs & _ & Hagain & _).
  exists w'. repeat split; assumption.
Defined.

Lemma begin_then_getSession_witness :
  UnitOfWork.begin reliable idle = (Return tt, busy) /\
  UnitOfWork.getSession busy = (Return 0%nat, busy).
Proof.
  split; [reflexivity|].
  destruct (begin_then_getSession reliable idle busy eq_refl)
    as (s & Hs & Hget).
  cbn in Hs. injection Hs as <-. exact Hget.
Defined.

Lemma no_session_guards_witness :
  UnitOfWork.dispose reliable busy =
    (Return tt, snd (UnitOfWork.dispose reliable busy)) /\
  UnitOfWork.getSession (snd (UnitOfWork.dispose reliable busy)) =
    (Throw (Error "No active transaction. Call begin() first."),
     snd (UnitOfWork.dispose reliable busy)) /\
  fst (UnitOfWork.execute (always_returns 42%nat)
         (snd (UnitOfWork.dispose reliable busy))) =
    Throw (Error "No active transaction. Call begin() first.").
Proof.
  split; [reflexivity|].
  destruct (no_session_guards reliable nat (always_returns 42%nat) busy
              (snd (UnitOfWork.dispose reliable busy)) eq_refl)
    as (_ & Hget & w'' & Hexec & _).
  split; [exact Hget | now rewrite Hexec].
Defined.

Lemma execute_propagates_witness :
  session busy = Some 0%nat /\
  exists w',
    UnitOfWork.execute (always_throws fatal) busy = (Throw fatal, w') /\
    session w' = Some 0%nat /\
    history w' = history busy ++ [Invoke 0%nat (Some fatal)].
Proof.
  split; [reflexivity|].
  exact (execute_propagates reliable nat (always_throws fatal) busy 0%nat
           eq_refl).
Defined.

Lemma executeTransaction_returns_witness :
  exists w',
    UnitOfWork.executeTransaction reliable (always_returns 42%nat) idle
      = (Return 42%nat, w') /\
    session idle = None /\
    session w' = None.
Proof.
  eexists. split; [vm_compute; reflexivity|].
  refine ((fun H => conj (proj1 H) (proj1 (proj2 H)))
            (executeTransaction_returns reliable nat (always_returns 42%nat)
               idle _ 42%nat _)).
  vm_compute. reflexivity.
Defined.

Lemma executeTransaction_without_session_witness :
  session idle = None /\
  startSession unreachable (history idle) = Throw connect_failure /\
  exists w',
    UnitOfWork.executeTransaction unreachable (always_returns 42%nat) idle
      = (Throw connect_failure, w') /\
    session w' = None /\
    since idle w' = [StartSession (Throw connect_failure)].
Proof.
  split; [reflexivity | split; [reflexivity|]].
  exact (executeTransaction_without_session unreachable nat
           (always_returns 42%nat) idle connect_failure eq_refl eq_refl).
Defined.

Lemma by_hand_agrees_witness :
  by_hand reliable (always_returns 42%nat) idle =
    (Return 42%nat, snd (by_hand reliable (always_returns 42%nat) idle)) /\
  exists w2,
    UnitOfWork.executeTransaction reliable (always_returns 42%nat) idle
      = (Return 42%nat, w2) /\
    history w2 = history (snd (by_hand reliable (always_returns 42%nat) idle)) /\
    session w2 = session (snd (by_hand reliable (always_returns 42%nat) idle)).
Proof.
  split; [reflexivity|].
  exact (by_hand_agrees reliable nat (always_returns 42%nat) idle _ 42%nat
           eq_refl).
Defined.


Lemma attempts_bounded_witness :
  0 <= maxRetries DEFAULT_RETRY_OPTIONS /\
  let w' :=
    snd (ResilientUnitOfWork.executeTransaction reliable DEFAULT_RETRY_OPTIONS
           (succeeds_after 1 7) idle) in
  attempts_made (logged_since idle w') = 2%nat /\
  delays (since idle w') = [Finite 100].
Proof.
  split; [discriminate|].
  destruct (attempts_bounded reliable DEFAULT_RETRY_OPTIONS nat
              (succeeds_after 1 7) idle) as (_ & _ & Hd); [discriminate|].
  split; [reflexivity | rewrite Hd; reflexivity].
Defined.

Lemma total_delay_bounded_witness :
  0 <= maxRetries DEFAULT_RETRY_OPTIONS /\
  0 <= maxDelayMs DEFAULT_RETRY_OPTIONS /\
  total_delay
    (since idle
       (snd (ResilientUnitOfWork.executeTransaction reliable
               DEFAULT_RETRY_OPTIONS (always_throws transient) idle)))
    = Some 700 /\
  700 <= maxRetries DEFAULT_RETRY_OPTIONS * maxDelayMs DEFAULT_RETRY_OPTIONS.
Proof.
  split; [discriminate | split; [discriminate|]].
  split; [vm_compute; reflexivity|].
  apply (proj1 (total_delay_bounded reliable DEFAULT_RETRY_OPTIONS nat
                  (always_throws transient) idle
                  ltac:(discriminate) ltac:(discriminate))).
  vm_compute. reflexivity.
Defined.

Lemma success_is_transparent_witness :
  0 <= maxRetries DEFAULT_RETRY_OPTIONS /\
  exists w1,
    UnitOfWork.executeTransaction reliable (always_returns 42%nat) idle
      = (Return 42%nat, w1) /\
    ResilientUnitOfWork.executeTransaction reliable DEFAULT_RETRY_OPTIONS
      (always_returns 42%nat) idle = (Return 42%nat, w1).
Proof.
  split; [discriminate|].
  eexists. split; [vm_compute; reflexivity|].
  apply (success_is_transparent reliable DEFAULT_RETRY_OPTIONS nat
           (always_returns 42%nat) idle);
    [discriminate | vm_compute; reflexivity].
Defined.

Lemma succeeds_on_third_attempt_witness :
  2 <= maxRetries DEFAULT_RETRY_OPTIONS /\
  let (r, w') :=
    ResilientUnitOfWork.executeTransaction reliable DEFAULT_RETRY_OPTIONS
      (succeeds_after 2 7) idle in
  r = Return 7%nat /\
  attempts_made (logged_since idle w') = 3%nat /\
  delays (since idle w') = map Finite [100; 200].
Proof.
  split; [discriminate|].
  edestruct (succeeds_on_third_attempt reliable DEFAULT_RETRY_OPTIONS nat
               (succeeds_after 2 7) idle) as (Hrun & Hmade & Hslept).
  - discriminate.
  - vm_compute. reflexivity.
  - reflexivity.
  - vm_compute. reflexivity.
  - reflexivity.
  - vm_compute. reflexivity.
  - rewrite Hrun. repeat split;
      first [exact Hmade | exact Hslept | reflexivity].
Defined.

Lemma zero_retries_never_retries_witness :
  maxRetries (with_maxRetries 0) = 0 /\
  ResilientUnitOfWork.isRetryableError (with_maxRetries 0) transient
    = Return true /\
  let (r, w') :=
    ResilientUnitOfWork.executeTransaction reliable (with_maxRetries 0)
      (always_throws transient) idle in
  r = Throw transient /\ invocations (history w') = 1%nat /\
  delays (history w') = [].
Proof.
  split; [reflexivity | split; [reflexivity|]].
  edestruct (zero_retries_never_retries reliable (with_maxRetries 0) nat
               (always_throws transient) idle) as (Hrun & Hh).
  - reflexivity.
  - vm_compute. reflexivity.
  - rewrite Hrun. repeat split.
Defined.

Lemma no_attempt_when_negative_witness :
  maxRetries (with_maxRetries (-1)) < 0 /\
  ResilientUnitOfWork.executeTransaction reliable (with_maxRetries (-1))
    (always_returns 42%nat) idle = (Throw undefined, idle).
Proof.
  split; [reflexivity|].
  apply (no_attempt_when_negative reliable (with_maxRetries (-1)) nat
           (always_returns 42%nat) idle). reflexivity.
Defined.



Lemma usage_error_not_retried_witness :
  session busy = Some 0%nat /\
  let (r, w') :=
    ResilientUnitOfWork.executeTransaction reliable DEFAULT_RETRY_OPTIONS
      (always_returns 42%nat) busy in
  r = Throw (Error "A session is already active") /\
  session w' = None /\
  calls EndSession 0%nat (since busy w') = 1%nat /\
  invocations (since busy w') = 0%nat /\
  delays (since busy w') = [].
Proof.
  split; [reflexivity|].
  apply (usage_error_not_retried reliable DEFAULT_RETRY_OPTIONS nat
           (always_returns 42%nat) busy 0%nat);
    [reflexivity | discriminate | reflexivity | reflexivity].
Defined.

Lemma executeTransaction_error_provenance_witness :
  exists w',
    UnitOfWork.executeTransaction (scripted abort_throws false)
      (always_throws fatal) idle = (Throw fatal, w') /\
    ((session idle <> None /\ fatal = Error "A session is already active") \/
     In (StartSession (Throw fatal)) (since idle w') \/
     (exists s, In (Invoke s (Some fatal)) (since idle w')) \/
     (exists s op,
        In (SessionCall op s (Some fatal)) (since idle w') /\
        op <> AbortTransaction)).
Proof.
  eexists. split; [vm_compute; reflexivity|].
  apply (executeTransaction_error_provenance (scripted abort_throws false) nat
           (always_throws fatal) idle).
  vm_compute. reflexivity.
Defined.


Lemma executor_return_provenance_witness :
  exists w' wa,
    ResilientUnitOfWork.executeTransaction reliable DEFAULT_RETRY_OPTIONS
      (succeeds_after 1 7) idle = (Return 7%nat, w') /\
    UnitOfWork.executeTransaction reliable (succeeds_after 1 7) wa
      = (Return 7%nat, w').
Proof.
  eexists.
  refine ((fun Hrun =>
             match executor_return_provenance reliable DEFAULT_RETRY_OPTIONS
                     nat (succeeds_after 1 7) idle _ 7%nat Hrun with
             | ex_intro _ wa H => ex_intro _ wa (conj Hrun H)
             end) _).
  vm_compute. reflexivity.
Defined.
